(** * Spec discovery and default spec file names (data-context, ProjectDataSource)

    A shallow embedding of
    [packages/data-context/src/sources/ProjectDataSource.ts]:
    [transformSpec], [getLongestCommonPrefixFromPaths],
    [getLongestCommonPrefixFromGlob] and the methods of the class
    [ProjectDataSource] that read the spec patterns and drive the spec
    watcher.

    JavaScript strings are modelled as [string]; arrays as lists (arrays
    with holes as lists of options); [null]/[undefined] as [None]; a thrown
    error or rejected promise as [Throw].  Third-party functions (Node's
    [path], [minimatch], [parse-glob], [micromatch], [randexp], [chokidar])
    are fields of type classes: a statement holds for whatever these
    libraries compute, unless it says what it assumes of them. *)

From stdpp Require Import base list strings.
From Stdlib Require Import ZArith Lia Ascii.

Open Scope string_scope.

(** ** JavaScript string methods used by the source *)

Module Js.

(** [s.startsWith(p)] *)
Definition startsWith (s p : string) : bool := String.prefix p s.

(** [s.slice(n)] for [0 <= n] *)
Fixpoint drop_str (n : nat) (s : string) : string :=
  match n, s with
  | O, _ => s
  | S _, EmptyString => EmptyString
  | S k, String _ s' => drop_str k s'
  end.

(** [s.slice(0, n)] for [0 <= n] *)
Fixpoint take_str (n : nat) (s : string) : string :=
  match n, s with
  | O, _ => EmptyString
  | S _, EmptyString => EmptyString
  | S k, String c s' => String c (take_str k s')
  end.

(** [s.slice(a, b)] for [0 <= a], [0 <= b] *)
Definition slice (a b : nat) (s : string) : string :=
  take_str (b - a) (drop_str a s).

(** [s.slice(0, -1)] *)
Definition drop_last (s : string) : string :=
  take_str (String.length s - 1) s.

(** [s.endsWith(p)] *)
Definition endsWith (s p : string) : bool :=
  (String.length p <=? String.length s)%nat
  && String.eqb (drop_str (String.length s - String.length p) s) p.

(** [s.replace(pat, rep)] with a string pattern: only the first
    occurrence (scanning from the left) is replaced; the empty pattern
    matches at position 0. *)
Fixpoint replace_first (pat rep s : string) : string :=
  if String.prefix pat s then rep +:+ drop_str (String.length pat) s
  else match s with
       | EmptyString => EmptyString
       | String c s' => String c (replace_first pat rep s')
       end.

(** [s.replace(/c/g, rep)] for a regular expression matching the single
    character [c] *)
Fixpoint replace_all_char (c : ascii) (rep s : string) : string :=
  match s with
  | EmptyString => EmptyString
  | String d s' =>
      (if Ascii.eqb d c then rep else String d EmptyString)
        +:+ replace_all_char c rep s'
  end.

(** [s.split(re)] for a regular expression matching one character of
    the class [is_sep]; [cur] is the piece being read, reversed. *)
Fixpoint split_on_go (is_sep : ascii -> bool) (cur : string) (s : string)
  : list string :=
  match s with
  | EmptyString => [String.rev cur]
  | String c s' =>
      if is_sep c then String.rev cur :: split_on_go is_sep EmptyString s'
      else split_on_go is_sep (String c cur) s'
  end.

Definition split_on (is_sep : ascii -> bool) (s : string) : list string :=
  split_on_go is_sep EmptyString s.

(** [s.split(sep)] for a non-empty string separator: [skip] counts the
    characters of a matched separator still to be passed over. *)
Fixpoint split_str_go (sep : string) (skip : nat) (cur : string) (s : string)
  : list string :=
  match s with
  | EmptyString => [String.rev cur]
  | String c s' =>
      match skip with
      | S k => split_str_go sep k cur s'
      | O =>
          if String.prefix sep s
          then String.rev cur
                 :: split_str_go sep (String.length sep - 1) EmptyString s'
          else split_str_go sep O (String c cur) s'
      end
  end.

(** [s.split("")]: the characters of [s] *)
Fixpoint chars (s : string) : list string :=
  match s with
  | EmptyString => []
  | String c s' => String c EmptyString :: chars s'
  end.

(** [s.split(sep)]: with the empty separator the string is cut into its
    characters (and the empty string gives the empty array). *)
Definition split_str (sep s : string) : list string :=
  match sep with
  | EmptyString => chars s
  | _ => split_str_go sep O EmptyString s
  end.

(** [a.join(sep)] on an array of strings *)
Fixpoint join (sep : string) (l : list string) : string :=
  match l with
  | [] => EmptyString
  | [x] => x
  | x :: l' => x +:+ sep +:+ join sep l'
  end.

(** [a.join(sep)] on an array with holes: a hole (or [undefined]) is
    printed as the empty string. *)
Definition join_holes (sep : string) (l : list (option string)) : string :=
  join sep (default EmptyString <$> l).

(** truthiness of a string; [a || b] on strings *)
Definition truthy (s : string) : bool := negb (String.eqb s EmptyString).

Definition or_else (o : option string) (d : string) : string :=
  match o with
  | Some s => if truthy s then s else d
  | None => d
  end.

(** [s.includes(p)] *)
Fixpoint includes (s p : string) : bool :=
  String.prefix p s
  || match s with
     | EmptyString => false
     | String _ s' => includes s' p
     end.

End Js.

(** ** Node's [path] module *)

(** The functions of [path] the source calls.  Which implementation is
    behind them ([path.posix] or [path.win32]) depends on the platform. *)
Class NodePath := {
  path_sep : string;
  path_relative : string -> string -> string;
  path_parse_base : string -> string;
  path_extname : string -> string;
}.

(** [path.posix]: the scanner shared by [extname] and [parse], which walks
    the path from its last character down to index [start]. *)
Module Posix.

Record scan := {
  startDot : Z;
  startPart : Z;
  end_ : Z;
  matchedSlash : bool;
  preDotState : Z;
  stopped : bool;
}.

Definition scan0 : scan :=
  {| startDot := -1; startPart := 0; end_ := -1; matchedSlash := true;
     preDotState := 0; stopped := false |}.

Definition step (i : Z) (code : ascii) (st : scan) : scan :=
  if stopped st then st
  else if Ascii.eqb code "/" then
    if negb (matchedSlash st)
    then {| startDot := startDot st; startPart := i + 1; end_ := end_ st;
            matchedSlash := matchedSlash st; preDotState := preDotState st;
            stopped := true |}
    else st
  else
    let st1 :=
      if (end_ st =? -1)%Z
      then {| startDot := startDot st; startPart := startPart st;
              end_ := i + 1; matchedSlash := false;
              preDotState := preDotState st; stopped := false |}
      else st in
    if Ascii.eqb code "."
    then
      if (startDot st1 =? -1)%Z
      then {| startDot := i; startPart := startPart st1; end_ := end_ st1;
              matchedSlash := matchedSlash st1;
              preDotState := preDotState st1; stopped := false |}
      else if negb (preDotState st1 =? 1)%Z
      then {| startDot := startDot st1; startPart := startPart st1;
              end_ := end_ st1; matchedSlash := matchedSlash st1;
              preDotState := 1; stopped := false |}
      else st1
    else if negb (startDot st1 =? -1)%Z
    then {| startDot := startDot st1; startPart := startPart st1;
            end_ := end_ st1; matchedSlash := matchedSlash st1;
            preDotState := -1; stopped := false |}
    else st1.

(** the characters of [s] from index [i] on, paired with their index *)
Fixpoint indexed (i : Z) (s : string) : list (Z * ascii) :=
  match s with
  | EmptyString => []
  | String c s' => (i, c) :: indexed (i + 1) s'
  end.

(** [for (i = path.length - 1; i >= start; --i)] *)
Definition run (start : nat) (p : string) : scan :=
  foldr (fun ic k st => k (step ic.1 ic.2 st)) (fun st => st)
        (rev (drop start (indexed 0 p))) scan0.

Definition no_ext (st : scan) : bool :=
  (startDot st =? -1)%Z
  || (preDotState st =? 0)%Z
  || ((preDotState st =? 1)%Z
      && (startDot st =? end_ st - 1)%Z
      && (startDot st =? startPart st + 1)%Z).

Definition extname (p : string) : string :=
  let st := run 0 p in
  if no_ext st || (end_ st =? -1)%Z then EmptyString
  else Js.slice (Z.to_nat (startDot st)) (Z.to_nat (end_ st)) p.

(** [parse(p).base] *)
Definition parse_base (p : string) : string :=
  match p with
  | EmptyString => EmptyString
  | String c _ =>
      let isAbsolute := Ascii.eqb c "/" in
      let st := run (if isAbsolute then 1 else 0) p in
      if (end_ st =? -1)%Z then EmptyString
      else
        let start :=
          if (startPart st =? 0)%Z && isAbsolute then 1%Z else startPart st in
        Js.slice (Z.to_nat start) (Z.to_nat (end_ st)) p
  end.

End Posix.

(** [path.posix], for a given [relative] *)
Definition posix_path (relative : string -> string -> string) : NodePath :=
  {| path_sep := "/";
     path_relative := relative;
     path_parse_base := Posix.parse_base;
     path_extname := Posix.extname |}.

(** ** Results of fallible calls *)

(** A call either returns a value or throws; an awaited promise either
    fulfils with a value or rejects. *)
Inductive Res (A : Type) : Type :=
| Ok (a : A)
| Throw (e : string).

Arguments Ok {A} a.
Arguments Throw {A} e.

#[export] Instance Res_ret : MRet Res := fun _ a => Ok a.
#[export] Instance Res_bind : MBind Res :=
  fun _ _ f m => match m with Ok a => f a | Throw e => Throw e end.

(** [try { body } catch (err) { handler(err) }] *)
Definition try_catch {A} (body : Res A) (handler : string -> Res A) : Res A :=
  match body with
  | Ok a => Ok a
  | Throw e => handler e
  end.

(** [promise.catch(handler)] *)
Definition promise_catch {A} (p : Res A) (handler : string -> A) : Res A :=
  match p with
  | Ok a => Ok a
  | Throw e => Ok (handler e)
  end.

(** ** Data model *)

Inductive TestingType := e2e | component.

Definition testingType_str (t : TestingType) : string :=
  match t with e2e => "e2e" | component => "component" end.

Inductive SpecType := spec_component | spec_integration.

(** ['js' | 'ts'] *)
Inductive FileExtension := js | ts.

Definition fileExtension_str (x : FileExtension) : string :=
  match x with js => "js" | ts => "ts" end.

(** [SpecWithRelativeRoot] ([FoundSpec & { relativeToCommonRoot }]) *)
Record FoundSpec := {
  fileExtension : string;
  baseName : string;
  fileName : string;
  specFileExtension : string;
  relativeToCommonRoot : string;
  specType : SpecType;
  name : string;
  relative : string;
  absolute : string;
}.

(** Modelled from the spec: [toPosix] of [../util/file] is not part of the
    sources at hand.  On a platform whose separator is not [/] every
    occurrence of the separator is replaced by [/]; otherwise the path is
    returned as it is. *)
Definition toPosix (file sep : string) : string :=
  if String.eqb sep "/" then file else Js.join "/" (Js.split_str sep file).

(** ** [transformSpec] *)

(** the compound suffixes, in the order in which the source tries them *)
Definition specSuffixes : list string :=
  [".spec"; ".test"; "-spec"; "-test"; ".cy"].

(** [s.replace(/^\/|/g, '')]: the only non-empty match of the expression
    is a [/] at the very start. *)
Definition strip_leading_slash (s : string) : string :=
  if Js.startsWith s "/" then Js.drop_str 1 s else s.

Section TransformSpec.
Context `{NodePath}.

Definition transformSpec (projectRoot absolute : string)
    (testingType : TestingType) (commonRoot platform sep : string)
  : FoundSpec :=
  let win := String.eqb platform "win32" in
  let absolute := if win then toPosix absolute sep else absolute in
  let projectRoot := if win then toPosix projectRoot sep else projectRoot in
  let relative := path_relative projectRoot absolute in
  let parsedFile_base := path_parse_base absolute in
  let fileExtension := path_extname absolute in
  let specFileExtension :=
    Js.or_else
      (find (fun ext => Js.endsWith absolute ext)
            ((fun ext => ext +:+ fileExtension) <$> specSuffixes))
      fileExtension in
  let parts := Js.split_str projectRoot absolute in
  let name := Js.or_else (last parts) "" in
  let name := if Js.startsWith name "/" then Js.drop_str 1 name else name in
  let relativeToCommonRoot :=
    strip_leading_slash (Js.replace_first commonRoot "" absolute) in
  {| fileExtension := fileExtension;
     baseName := parsedFile_base;
     fileName := Js.replace_first specFileExtension "" parsedFile_base;
     specFileExtension := specFileExtension;
     relativeToCommonRoot := relativeToCommonRoot;
     specType := match testingType with
                 | component => spec_component
                 | e2e => spec_integration
                 end;
     name := name;
     relative := relative;
     absolute := absolute |}.

End TransformSpec.

(** ** [getLongestCommonPrefixFromPaths] *)

(** [pathname.split(/[\/\\]/g)] *)
Definition isPathSep (c : ascii) : bool :=
  Ascii.eqb c "/" || Ascii.eqb c "\".

Definition getPathParts (pathname : string) : list string :=
  Js.split_on isPathSep pathname.

(** [lcp] is a JavaScript array in which [delete lcp[i]] leaves a hole:
    a list of options, [None] being a hole.  Reading a hole or an index
    past the end gives [undefined]. *)
Definition arr_get (lcp : list (option string)) (i : nat) : option string :=
  mjoin (lcp !! i).

(** [delete lcp[i]]: the length is kept; past the end nothing happens. *)
Definition arr_delete (lcp : list (option string)) (i : nat)
  : list (option string) :=
  <[i := None]> lcp.

(** The inner loop [for (let i = pathParts.length - 1; i >= 0; i--)],
    entered with [n] indices left to visit (so the next index is [n - 1]);
    the state is the pair of [end] and [lcp]. *)
Fixpoint scanParts (pathParts : list string) (n : nat)
    (st : nat * list (option string)) : nat * list (option string) :=
  match n with
  | O => st
  | S i =>
      let '(end_, lcp) := st in
      if decide (arr_get lcp i = pathParts !! i)
      then scanParts pathParts i (end_, lcp)
      else scanParts pathParts i (i, arr_delete lcp i)
  end.

(** The outer loop [for (const filename of paths.slice(1))]; [None] is the
    early [return ''] taken when [lcp.length === 0]. *)
Fixpoint scanPaths (rest : list string) (st : nat * list (option string))
  : option (nat * list (option string)) :=
  match rest with
  | [] => Some st
  | filename :: rest' =>
      let pathParts := getPathParts filename in
      let st' := scanParts pathParts (length pathParts) st in
      if decide (length st'.2 = 0) then None else scanPaths rest' st'
  end.

Section LongestCommonPrefixFromPaths.
Context `{NodePath}.

Definition getLongestCommonPrefixFromPaths (paths : list string) : string :=
  match paths with
  | [] => ""
  | p0 :: rest =>
      if negb (Js.truthy p0) then ""
      else
        let lcp := getPathParts p0 in
        match rest with
        | [] => Js.join path_sep (take (length lcp - 1) lcp)
        | _ =>
            match scanPaths rest (length lcp, Some <$> lcp) with
            | None => ""
            | Some (end_, lcp') => Js.join_holes path_sep (take end_ lcp')
            end
        end
  end.

End LongestCommonPrefixFromPaths.

(** ** External collaborators *)

(** what [parse-glob] returns, as far as the source reads it:
    [is.glob] and the fields of [path] *)
Record ParsedGlob := {
  is_glob : bool;
  pg_dirname : string;
  pg_filename : string;
  pg_extname : string;
  pg_ext : string;
}.

(** the debounced listener registered with [on('all', ...)]: the delay and
    the arguments [findSpecs] will be called with *)
Record Listener := {
  l_event : string;
  l_wait : nat;
  l_projectRoot : string;
  l_testingType : TestingType;
  l_specPattern : list string;
  l_excludeSpecPattern : list string;
  l_additionalIgnore : list string;
}.

(** a [chokidar] watcher: the arguments of [chokidar.watch] and the
    listeners registered since *)
Record FSWatcher := {
  w_paths : string;
  w_ignoreInitial : bool;
  w_cwd : string;
  w_ignored : list string;
  w_listeners : list Listener;
}.

Class Libs := {
  (** [defaultSpecPattern] of [@packages/config] *)
  defaultSpecPattern : TestingType -> string;
  (** [minimatch(file, pattern, { dot: true, matchBase: true })] *)
  minimatch : string -> string -> bool;
  (** [parseGlob(glob)] *)
  parseGlob : string -> Res ParsedGlob;
  (** [mm.braces(glob, { expand: true })] *)
  mm_braces : string -> list string;
  (** [mm(list, pattern, { basename: true })] *)
  mm : list string -> string -> list string;
  (** [new RandExp(source).gen()] *)
  randexp_gen : string -> Res string;
  (** the promise returned by [watcher.close()], once settled *)
  chokidar_close : FSWatcher -> Res unit;
}.

(** ** [getLongestCommonPrefixFromGlob] *)

Definition replaceWildCard (s fallback : string) : string :=
  Js.replace_all_char "*" fallback s.

Section LongestCommonPrefixFromGlob.
Context `{Libs}.

(** [undefined] is [None] *)
Definition getLongestCommonPrefixFromGlob (inputGlob : string)
    (testingType : TestingType) (fileExtensionToUse : option FileExtension)
  : Res (option string) :=
  parsedGlob ← parseGlob inputGlob;
  if negb (is_glob parsedGlob) then Ok (Some inputGlob)
  else
    let dirname := pg_dirname parsedGlob in
    let dirname :=
      if Js.startsWith dirname "**"
      then Js.replace_first "**" "cypress" dirname else dirname in
    let splittedDirname :=
      Js.join "/"
        ((fun x => replaceWildCard x (testingType_str testingType))
           <$> filter (fun s => s ≠ "**") (Js.split_str "/" dirname)) in
    let fileName := replaceWildCard (pg_filename parsedGlob) "filename" in
    let extnameWithoutExt :=
      Js.replace_first (pg_ext parsedGlob) "" (pg_extname parsedGlob) in
    let extname := replaceWildCard extnameWithoutExt "cy" in
    let extname :=
      if Js.startsWith extname "." then Js.drop_str 1 extname else extname in
    let extname :=
      if Js.endsWith extname "." then Js.drop_last extname else extname in
    let basename :=
      Js.join "."
        (filter (fun s => Js.truthy s = true)
                [fileName; extname; pg_ext parsedGlob]) in
    let glob := splittedDirname +:+ basename in
    let globWithoutBraces := mm_braces glob in
    let finalGlob := head globWithoutBraces in
    let finalGlob :=
      match fileExtensionToUse with
      | Some x =>
          let filteredGlob :=
            mm globWithoutBraces ("*." +:+ fileExtension_str x) in
          match filteredGlob with
          | [] => finalGlob
          | g :: _ => Some g
          end
      | None => finalGlob
      end in
    match finalGlob with
    | None => Ok None
    | Some g =>
        if negb (Js.truthy g) then Ok None
        else
          s ← randexp_gen (Js.replace_all_char "." "\." g);
          Ok (Some s)
    end.

End LongestCommonPrefixFromGlob.

(** ** The class [ProjectDataSource] *)

(** [config.specPattern] and [config.excludeSpecPattern]:
    [string | string[] | undefined] *)
Inductive PatternCfg :=
| cfg_unset
| cfg_one (s : string)
| cfg_many (l : list string).

Record FullConfig := {
  cfg_specPattern : PatternCfg;
  cfg_excludeSpecPattern : PatternCfg;
}.

(** what the methods read of [this.ctx] *)
Record DataContext := {
  (** [ctx.currentProject] *)
  currentProject : option string;
  (** [ctx.coreData.currentTestingType] *)
  currentTestingType : option TestingType;
  (** [ctx.lifecycleManager.fileExtensionToUse] *)
  fileExtensionToUse : FileExtension;
  (** [await ctx.lifecycleManager.getFullInitialConfig()] *)
  getFullInitialConfig : Res FullConfig;
}.

(** what the watcher methods do to the outside *)
Inductive Effect :=
| ev_watch (w : FSWatcher)
| ev_close (w : FSWatcher)
| ev_unhandledRejection (e : string).

(** the object: its two private fields, its context, and the trace of
    effects so far (most recent first) *)
Record ProjectDataSource := {
  ctx : DataContext;
  _specWatcher : option FSWatcher;
  _specs : list FoundSpec;
  effects : list Effect;
}.

(** [!x] on [string | null] *)
Definition falsy_str (o : option string) : bool :=
  match o with
  | Some s => negb (Js.truthy s)
  | None => true
  end.

(** [`${t}`] on [TestingType | null] *)
Definition testingType_tpl (o : option TestingType) : string :=
  match o with
  | Some t => testingType_str t
  | None => "null"
  end.

(** [val ? typeof val === 'string' ? [val] : val : undefined] *)
Definition toArray (val : PatternCfg) : option (list string) :=
  match val with
  | cfg_unset => None
  | cfg_one s => if Js.truthy s then Some [s] else None
  | cfg_many l => Some l
  end.

Definition getConfig (this : ProjectDataSource) : Res FullConfig :=
  getFullInitialConfig (ctx this).

Definition specPatterns (this : ProjectDataSource)
  : Res (option (list string) * option (list string)) :=
  config ← getConfig this;
  Ok (toArray (cfg_specPattern config),
      toArray (cfg_excludeSpecPattern config)).

(** a promise that nobody awaits: a rejection left in it is reported *)
Definition forget (p : Res unit) (this : ProjectDataSource)
  : ProjectDataSource :=
  match p with
  | Ok _ => this
  | Throw e =>
      {| ctx := ctx this; _specWatcher := _specWatcher this;
         _specs := _specs this;
         effects := ev_unhandledRejection e :: effects this |}
  end.

Section Methods.
Context `{NodePath} `{Libs}.

Definition stopSpecWatcher (this : ProjectDataSource)
  : ProjectDataSource * Res unit :=
  match _specWatcher this with
  | None => (this, Ok ())
  | Some w =>
      let p := promise_catch (chokidar_close w) (fun _ => ()) in
      let this := {| ctx := ctx this; _specWatcher := _specWatcher this;
                     _specs := _specs this;
                     effects := ev_close w :: effects this |} in
      let this := forget p this in
      ({| ctx := ctx this; _specWatcher := None; _specs := _specs this;
          effects := effects this |}, Ok ())
  end.

Definition startSpecWatcher (this : ProjectDataSource)
    (projectRoot : string) (testingType : TestingType)
    (specPattern excludeSpecPattern additionalIgnore : list string)
  : ProjectDataSource * Res unit :=
  match stopSpecWatcher this with
  | (this, Throw e) => (this, Throw e)
  | (this, Ok _) =>
      if falsy_str (currentProject (ctx this))
      then (this, Throw "Cannot start spec watcher without current project")
      else
        let onProjectFileSystemChange :=
          {| l_event := "all"; l_wait := 250;
             l_projectRoot := projectRoot; l_testingType := testingType;
             l_specPattern := specPattern;
             l_excludeSpecPattern := excludeSpecPattern;
             l_additionalIgnore := additionalIgnore |} in
        let w := {| w_paths := "."; w_ignoreInitial := true;
                    w_cwd := projectRoot;
                    w_ignored := "**/node_modules/**"
                                   :: excludeSpecPattern ++ additionalIgnore;
                    w_listeners := [] |} in
        let w' := {| w_paths := w_paths w;
                     w_ignoreInitial := w_ignoreInitial w;
                     w_cwd := w_cwd w; w_ignored := w_ignored w;
                     w_listeners :=
                       w_listeners w ++ [onProjectFileSystemChange] |} in
        ({| ctx := ctx this; _specWatcher := Some w'; _specs := _specs this;
            effects := ev_watch w :: effects this |}, Ok ())
  end.

Definition defaultSpecFileName (this : ProjectDataSource)
  : Res (option string) :=
  let defaultFilename :=
    "cypress/" +:+ testingType_tpl (currentTestingType (ctx this))
      +:+ "/filename.cy."
      +:+ fileExtension_str (fileExtensionToUse (ctx this)) +:+ "/" in
  try_catch
    (match currentProject (ctx this), currentTestingType (ctx this) with
     | Some project, Some testingType =>
         if negb (Js.truthy project) then Ok None
         else
           '(specPattern, _) ← specPatterns this;
           let specPattern := default [] specPattern in
           let specPatternSet := head specPattern in
           match specPatternSet with
           | None => Ok (Some defaultFilename)
           | Some specPatternSet =>
               if negb (Js.truthy specPatternSet)
               then Ok (Some defaultFilename)
               else if decide (specPatternSet = defaultSpecPattern testingType)
               then Ok (Some defaultFilename)
               else
                 let filenameFromSpecs :=
                   getLongestCommonPrefixFromPaths
                     (relative <$> _specs this) in
                 if Js.truthy filenameFromSpecs
                 then Ok (Some filenameFromSpecs)
                 else
                   filenameFromGlob ←
                     getLongestCommonPrefixFromGlob specPatternSet
                       testingType (Some (fileExtensionToUse (ctx this)));
                   match filenameFromGlob with
                   | Some g =>
                       if Js.truthy g then Ok (Some g)
                       else Ok (Some defaultFilename)
                   | None => Ok (Some defaultFilename)
                   end
           end
     | _, _ => Ok None
     end)
    (fun err => Ok (Some defaultFilename)).

(** a loop [for (const pattern of patterns)] whose body is
    [if (minimatch(specFile, pattern, ...)) return ret]: [Some ret] when
    the [return] is taken, [None] when the loop runs to its end *)
Fixpoint returnOnMatch (specFile : string) (patterns : list string)
    (ret : bool) : option bool :=
  match patterns with
  | [] => None
  | pattern :: rest =>
      if minimatch specFile pattern then Some ret
      else returnOnMatch specFile rest ret
  end.

Definition matchesSpecPattern (this : ProjectDataSource) (specFile : string)
  : Res bool :=
  if falsy_str (currentProject (ctx this))
     || negb (bool_decide (is_Some (currentTestingType (ctx this))))
  then Ok false
  else
    '(specPattern, excludeSpecPattern) ← specPatterns this;
    let specPattern := default [] specPattern in
    let excludeSpecPattern := default [] excludeSpecPattern in
    match returnOnMatch specFile excludeSpecPattern false with
    | Some r => Ok r
    | None =>
        match returnOnMatch specFile specPattern true with
        | Some r => Ok r
        | None => Ok false
        end
    end.

End Methods.

(** ** Vocabulary of the statements *)

(** What the specification says of [specFileExtension]: the suffixes are
    tried one after the other, each one concatenated with the file
    extension; the first compound suffix the path ends with wins. *)
Fixpoint firstCompoundSuffix (path ext : string) (suffixes : list string)
  : option string :=
  match suffixes with
  | [] => None
  | suffix :: rest =>
      if Js.endsWith path (suffix +:+ ext) then Some (suffix +:+ ext)
      else firstCompoundSuffix path ext rest
  end.

Definition specFileExtension_spec (path ext : string) : string :=
  match firstCompoundSuffix path ext [".spec"; ".test"; "-spec"; "-test"; ".cy"] with
  | Some compound => compound
  | None => ext
  end.

(** ** Stand-ins for the collaborators *)

(** Concrete instances at which the statements below are evaluated.  The
    stand-ins cover what the examples need: globs without braces or
    character classes, regular expressions made of literal characters and
    escaped dots, a watcher whose [close()] rejects. *)
Module Ref.

Definition rel (from to : string) : string :=
  if Js.startsWith to (from +:+ "/")
  then Js.drop_str (String.length from + 1) to else to.

#[export] Instance path : NodePath := posix_path rel.

Definition isGlobChar (c : ascii) : bool :=
  bool_decide (c ∈ ["*"; "?"; "["; "]"; "{"; "}"; "("; ")"; "!"]%char).

Fixpoint existsb_str (f : ascii -> bool) (s : string) : bool :=
  match s with
  | EmptyString => false
  | String c s' => f c || existsb_str f s'
  end.

(** the decomposition documented by [parse-glob]: [dirname] runs up to
    and includes the last [/]; the rest is cut at its first dot into
    [filename] and [extname]; [ext] follows the last dot *)
Definition parse (glob : string) : Res ParsedGlob :=
  let segs := Js.split_str "/" glob in
  let basename := default "" (last segs) in
  let dirname :=
    Js.take_str (String.length glob - String.length basename) glob in
  let dots := Js.split_str "." basename in
  let filename := default "" (head dots) in
  let extname := Js.drop_str (String.length filename) basename in
  let ext := match dots with
             | _ :: _ :: _ => default "" (last dots)
             | _ => ""
             end in
  Ok {| is_glob := existsb_str isGlobChar glob; pg_dirname := dirname;
        pg_filename := filename; pg_extname := extname; pg_ext := ext |}.

(** [mm(list, "*.ext", { basename: true })] *)
Definition match_basename (l : list string) (pattern : string) : list string :=
  filter (fun x => Js.endsWith (Posix.parse_base x) (Js.drop_str 1 pattern) = true) l.

(** a backslash makes the next character a literal one *)
Fixpoint unescape (s : string) : string :=
  match s with
  | EmptyString => EmptyString
  | String c s' =>
      if Ascii.eqb c "\"
      then match s' with
           | EmptyString => EmptyString
           | String d s'' => String d (unescape s'')
           end
      else String c (unescape s')
  end.

Definition config (include exclude : PatternCfg) : Res FullConfig :=
  Ok {| cfg_specPattern := include; cfg_excludeSpecPattern := exclude |}.

Definition source (project : option string) (cfg : Res FullConfig)
    (watcher : option FSWatcher) (specs : list FoundSpec)
  : ProjectDataSource :=
  {| ctx := {| currentProject := project; currentTestingType := Some e2e;
               fileExtensionToUse := js; getFullInitialConfig := cfg |};
     _specWatcher := watcher; _specs := specs; effects := [] |}.

Definition watcher : FSWatcher :=
  {| w_paths := "."; w_ignoreInitial := true; w_cwd := "/proj";
     w_ignored := ["**/node_modules/**"]; w_listeners := [] |}.

#[export] Instance libs : Libs :=
  {| defaultSpecPattern t :=
       match t with
       | e2e => "cypress/e2e/**/*.cy.{js,jsx,ts,tsx}"
       | component => "**/*.cy.{js,jsx,ts,tsx}"
       end;
     minimatch file pattern :=
       String.eqb file pattern
       || (Js.startsWith pattern "**/*"
           && Js.endsWith file (Js.drop_str 4 pattern));
     parseGlob := parse;
     mm_braces glob := [glob];
     mm := match_basename;
     randexp_gen source := Ok (unescape source);
     chokidar_close w := Throw "EBUSY" |}.

End Ref.

(** the include patterns after [toArray] and the default [= []] *)
Definition includePatterns (config : FullConfig) : list string :=
  default [] (toArray (cfg_specPattern config)).

(** the exclude patterns after [toArray] and the default [= []] *)
Definition excludePatterns (config : FullConfig) : list string :=
  default [] (toArray (cfg_excludeSpecPattern config)).

(** the template of the specification, without anything after the file
    extension *)
Definition templatePath (testingType : TestingType) (ext : FileExtension)
  : string :=
  "cypress/" +:+ testingType_str testingType +:+ "/filename.cy."
    +:+ fileExtension_str ext.

(** [this] with [_specWatcher] replaced *)
Definition withWatcher (this : ProjectDataSource) (w : option FSWatcher)
  : ProjectDataSource :=
  {| ctx := ctx this; _specWatcher := w; _specs := _specs this;
     effects := effects this |}.

(** the effects of closing the watcher held, if any: the call of
    [close()], and nothing else *)
Definition closeEffects (this : ProjectDataSource) : list Effect :=
  match _specWatcher this with
  | Some w => ev_close w :: effects this
  | None => effects this
  end.

Definition noProjectError : string :=
  "Cannot start spec watcher without current project".

Fixpoint forallb_str (f : ascii -> bool) (s : string) : bool :=
  match s with
  | EmptyString => true
  | String c s' => f c && forallb_str f s'
  end.

(** characters that stand for themselves in a regular expression, and the
    dot, which the source escapes *)
Definition isLiteralChar (c : ascii) : bool :=
  let n := nat_of_ascii c in
  ((48 <=? n) && (n <=? 57))%nat || ((65 <=? n) && (n <=? 90))%nat
  || ((97 <=? n) && (n <=? 122))%nat
  || bool_decide (c ∈ ["/"; "."; "_"; "-"]%char).

(** the directory portion of a path: what precedes its last [/] *)
Definition dirPortion (s : string) : string :=
  Js.join "/" (removelast (Js.split_str "/" s)).

(** what is assumed of the third-party functions: how [parse-glob] cuts
    up the glob of the example; that [mm.braces] leaves a pattern without
    braces alone; that [mm] selects among the strings it is given; that
    [RandExp] generates the text itself from an expression made of literal
    characters and escaped dots *)
Definition e2eGlobParsed `{Libs} : Prop :=
  parseGlob "cypress/e2e/**/*.cy.js"
  = Ok {| is_glob := true; pg_dirname := "cypress/e2e/**/"; pg_filename := "*";
          pg_extname := ".cy.js"; pg_ext := "js" |}.

Definition bracesKeepPlain `{Libs} : Prop :=
  forall glob, Js.includes glob "{" = false -> mm_braces glob = [glob].

Definition mmSelects `{Libs} : Prop :=
  forall list pattern x, x ∈ mm list pattern -> x ∈ list.

Definition randexpLiteral `{Libs} : Prop :=
  forall s, forallb_str isLiteralChar s = true ->
            randexp_gen (Js.replace_all_char "." "\." s) = Ok s.

(** the segments shared, from the start, by the first path and all the
    later ones *)
Definition commonSegments (parts0 : list string) (others : list (list string))
  : list string :=
  foldl (fun cur parts => (max_prefix cur parts).2) parts0 others.

(** what the outer loop keeps true: [end] is the number of segments
    shared so far, these segments are still in [lcp], and reading [lcp]
    at [end] gives [undefined] *)
Definition lcpState (cur : list string) (st : nat * list (option string))
  : Prop :=
  st.1 = length cur
  /\ (forall i x, cur !! i = Some x -> st.2 !! i = Some (Some x))
  /\ arr_get st.2 st.1 = None.

(** ** The other functions of the module *)

(** what the module asks of the machine and of the file API of the data
    context: [os.platform()], [path.dirname], the package
    [common-path-prefix], and [ctx.file.getFilesByGlob] *)
Inductive GlobArg :=
| glob_one (glob : string)
| glob_many (globs : list string).

Record GlobOptions := {
  go_absolute : option bool;
  go_ignore : option (list string);
  go_expandDirectories : option bool;
}.

Class Host := {
  os_platform : string;
  path_dirname : string -> string;
  commonPathPrefix : list string -> string;
  getFilesByGlob : string -> GlobArg -> GlobOptions -> Res (list string);
}.

(** [FilePartsShape], as far as [getCodeGenCandidates] fills it *)
Record FileParts := { fp_absolute : string }.

(** the name of the error thrown by [assert(x)] on a falsy [x] *)
Definition assertionError : string := "AssertionError".

Definition noProjectForComponents : string :=
  "Cannot find components without currentProject.".

Section MatchedSpecs.
Context `{NodePath} `{Host}.

Definition matchedSpecs (projectRoot : string) (testingType : TestingType)
    (specAbsolutePaths : list string) : list FoundSpec :=
  let commonRoot :=
    match specAbsolutePaths with
    | [p] => path_dirname p
    | _ => commonPathPrefix specAbsolutePaths
    end in
  (fun absolute =>
     transformSpec projectRoot absolute testingType commonRoot os_platform
       path_sep) <$> specAbsolutePaths.

Definition findSpecs (projectRoot : string) (testingType : TestingType)
    (specPattern excludeSpecPattern globToRemove : list string)
  : Res (list FoundSpec) :=
  specAbsolutePaths ←
    getFilesByGlob projectRoot (glob_many specPattern)
      {| go_absolute := Some true;
         go_ignore := Some ((excludeSpecPattern ++ globToRemove)%list);
         go_expandDirectories := None |};
  Ok (matchedSpecs projectRoot testingType specAbsolutePaths).

Definition getCodeGenCandidates (this : ProjectDataSource) (glob : string)
  : Res (list FileParts) :=
  let glob := if negb (Js.startsWith glob "**/") then "**/" +:+ glob else glob in
  match currentProject (ctx this) with
  | Some projectRoot =>
      if negb (Js.truthy projectRoot) then Throw noProjectForComponents
      else
        codeGenCandidates ←
          getFilesByGlob projectRoot (glob_one glob)
            {| go_absolute := None; go_ignore := None;
               go_expandDirectories := Some true |};
        Ok ((fun absolute => {| fp_absolute := absolute |})
              <$> (codeGenCandidates : list string))
  | None => Throw noProjectForComponents
  end.

End MatchedSpecs.

(** [get specs] and [setSpecs] *)
Definition specs (this : ProjectDataSource) : list FoundSpec := _specs this.

Definition setSpecs (this : ProjectDataSource) (specs : list FoundSpec)
  : ProjectDataSource :=
  {| ctx := ctx this; _specWatcher := _specWatcher this; _specs := specs;
     effects := effects this |}.

(** [this.ctx.project] is the object itself *)
Definition getCurrentSpecByAbsolute (this : ProjectDataSource)
    (path : string) : option FoundSpec :=
  find (fun x => bool_decide (absolute x = path)) (specs this).

Section MoreMethods.
Context `{Libs}.

Definition destroy (this : ProjectDataSource) : ProjectDataSource * Res unit :=
  stopSpecWatcher this.

(** [isEqual] of lodash, on [string[] | undefined] against an array *)
Definition getIsDefaultSpecPattern (this : ProjectDataSource) : Res bool :=
  if falsy_str (currentProject (ctx this)) then Throw assertionError
  else
    match currentTestingType (ctx this) with
    | None => Throw assertionError
    | Some testingType =>
        let e2e_ := defaultSpecPattern e2e in
        let component_ := defaultSpecPattern component in
        '(specPattern, _) ← specPatterns this;
        match testingType with
        | e2e => Ok (bool_decide (specPattern = Some [e2e_]))
        | component => Ok (bool_decide (specPattern = Some [component_]))
        end
    end.

(** the calls a client can make on the watcher, and a run of them *)
Inductive WatcherCall :=
| call_start (projectRoot : string) (testingType : TestingType)
    (specPattern excludeSpecPattern additionalIgnore : list string)
| call_stop
| call_destroy.

Definition call (this : ProjectDataSource) (c : WatcherCall)
  : ProjectDataSource * Res unit :=
  match c with
  | call_start projectRoot testingType specPattern excludeSpecPattern
      additionalIgnore =>
      startSpecWatcher this projectRoot testingType specPattern
        excludeSpecPattern additionalIgnore
  | call_stop => stopSpecWatcher this
  | call_destroy => destroy this
  end.

(** the calls are made one after the other, whether or not one throws *)
Definition calls (this : ProjectDataSource) (cs : list WatcherCall)
  : ProjectDataSource :=
  foldl (fun this c => (call this c).1) this cs.

End MoreMethods.

(** the watchers created, the watchers closed and the rejections left
    unhandled, counted on the trace *)
Definition isWatch (e : Effect) : bool :=
  match e with ev_watch _ => true | _ => false end.

Definition isClose (e : Effect) : bool :=
  match e with ev_close _ => true | _ => false end.

Definition isRejection (e : Effect) : bool :=
  match e with ev_unhandledRejection _ => true | _ => false end.

Definition countOf (f : Effect -> bool) (es : list Effect) : nat :=
  length (filter (fun e => f e = true) es).

(** one step of the outer loop of [getLongestCommonPrefixFromPaths], on
    segments: a later path that is a prefix of the candidate leaves it as
    it is, any other one cuts it down to what they share *)
Definition keepOrCut (cur parts : list string) : list string :=
  if decide (parts `prefix_of` cur) then cur else (max_prefix cur parts).2.

Definition keptSegments (parts0 : list string) (others : list (list string))
  : list string :=
  foldl keepOrCut parts0 others.

(** a path written with forward slashes only *)
Definition noBackslash (p : string) : bool :=
  forallb_str (fun c => negb (Ascii.eqb c "\")) p.

(** a host at which the statements are evaluated: a posix machine whose
    file API finds two components under the project root *)
Definition refHost : Host :=
  {| os_platform := "linux";
     path_dirname := dirPortion;
     commonPathPrefix paths :=
       match paths with
       | [] => ""
       | p :: rest =>
           Js.join "/" (commonSegments (getPathParts p) (getPathParts <$> rest))
             +:+ "/"
       end;
     getFilesByGlob root glob options :=
       Ok [root +:+ "/src/Button.tsx"; root +:+ "/src/form/Input.tsx"] |}.

(** a host whose file API answers with what it was asked: one file,
    named after the root, the options and the globs of the call *)
Definition echoHost : Host :=
  {| os_platform := "linux";
     path_dirname := dirPortion;
     commonPathPrefix paths := "";
     getFilesByGlob root glob options :=
       match go_ignore options with
       | Some _ => Throw "unexpected ignore list"
       | None =>
           Ok [root +:+ match go_expandDirectories options with
                        | Some true => "/+/"
                        | _ => "/-/"
                        end
                 +:+ match glob with
                     | glob_one g => g
                     | glob_many gs => Js.join "," gs
                     end]
       end |}.

(** the [defaultFilename] of [defaultSpecFileName], as the template
    literal builds it *)
Definition defaultFilenameOf (this : ProjectDataSource) : string :=
  "cypress/" +:+ testingType_tpl (currentTestingType (ctx this))
    +:+ "/filename.cy."
    +:+ fileExtension_str (fileExtensionToUse (ctx this)) +:+ "/".

(** the object is not ready: no project, or no testing type *)
Definition notReady (this : ProjectDataSource) : Prop :=
  falsy_str (currentProject (ctx this)) = true
  \/ currentTestingType (ctx this) = None.

(** every watcher created has been closed, but for the one held *)
Definition balanced (this : ProjectDataSource) : Prop :=
  countOf isWatch (effects this)
  = countOf isClose (effects this)
    + match _specWatcher this with Some _ => 1 | None => 0 end.

(** the common root [matchedSpecs] hands to [transformSpec] *)
Definition commonRootOf `{Host} (specAbsolutePaths : list string) : string :=
  match specAbsolutePaths with
  | [p] => path_dirname p
  | _ => commonPathPrefix specAbsolutePaths
  end.

(** * Properties *)

(** ** The functions at work *)

Example posix_extname_ex :
  Posix.extname "/p/a.cy.ts" = ".ts" /\ Posix.extname "/p/.bashrc" = ""
  /\ Posix.extname "/p/a.js/" = ".js" /\ Posix.extname "/p/.." = ""
  /\ Posix.extname "a." = "." /\ Posix.extname "/p.d/Makefile" = "".
Proof. repeat split; reflexivity. Qed.

Example posix_parse_base_ex :
  Posix.parse_base "/p/a.cy.ts" = "a.cy.ts" /\ Posix.parse_base "/p/a.js/" = "a.js"
  /\ Posix.parse_base "/" = "" /\ Posix.parse_base "x" = "x"
  /\ Posix.parse_base "/x" = "x".
Proof. repeat split; reflexivity. Qed.

Example js_split_ex :
  Js.split_str "/p" "/p/a/p/b.js" = [""; "/a"; "/b.js"]
  /\ Js.split_str "ab" "ab" = [""; ""]
  /\ Js.split_on (fun c => Ascii.eqb c "/") "/a/b" = [""; "a"; "b"]
  /\ Js.replace_first "**" "cypress" "**/x/**" = "cypress/x/**".
Proof. repeat split; reflexivity. Qed.

Example lcp_paths_ex (rel : string -> string -> string) :
  let P := posix_path rel in
  getLongestCommonPrefixFromPaths [] = ""
  /\ getLongestCommonPrefixFromPaths [""] = ""
  /\ getLongestCommonPrefixFromPaths ["/a/b/c.js"] = "/a/b"
  /\ getLongestCommonPrefixFromPaths ["/a/b/c.js"; "/a/b/d.js"] = "/a/b"
  /\ getLongestCommonPrefixFromPaths ["/a/b/c.js"; "/a/x/d.js"] = "/a"
  /\ getLongestCommonPrefixFromPaths ["a/b/c/d.js"; "a/b"] = "a/b/c/d.js".
Proof. repeat split; reflexivity. Qed.

Example transformSpec_ex :
  let P := Ref.path in
  let d := transformSpec "/proj" "/proj/cypress/e2e/login.cy.ts" e2e
             "/proj/cypress" "linux" "/" in
  d = {| fileExtension := ".ts"; baseName := "login.cy.ts"; fileName := "login";
         specFileExtension := ".cy.ts"; relativeToCommonRoot := "e2e/login.cy.ts";
         specType := spec_integration; name := "cypress/e2e/login.cy.ts";
         relative := "cypress/e2e/login.cy.ts";
         absolute := "/proj/cypress/e2e/login.cy.ts" |}
  /\ fileName d +:+ specFileExtension d = baseName d.
Proof. split; vm_compute; reflexivity. Qed.

Example transformSpec_win32_ex :
  let P := Ref.path in
  let d := transformSpec "C:\proj" "C:\proj\src\Button-spec.jsx" component
             "C:/proj/src" "win32" "\" in
  absolute d = "C:/proj/src/Button-spec.jsx"
  /\ specFileExtension d = "-spec.jsx" /\ fileName d = "Button"
  /\ name d = "src/Button-spec.jsx" /\ specType d = spec_component.
Proof. repeat split; vm_compute; reflexivity. Qed.

Example stopSpecWatcher_rejecting_close_ex :
  let L := Ref.libs in
  let this := Ref.source (Some "/proj") (Ref.config cfg_unset cfg_unset)
                (Some Ref.watcher) [] in
  chokidar_close Ref.watcher = Throw "EBUSY"
  /\ (stopSpecWatcher this).2 = Ok ()
  /\ _specWatcher (stopSpecWatcher this).1 = None
  /\ effects (stopSpecWatcher this).1 = [ev_close Ref.watcher]
  /\ stopSpecWatcher (stopSpecWatcher this).1 = ((stopSpecWatcher this).1, Ok ()).
Proof. repeat split. Qed.

(** ** [transformSpec]: the spec file extension *)

Lemma find_compound path ext suffixes :
  find (fun e => Js.endsWith path e) ((fun s => s +:+ ext) <$> suffixes)
  = firstCompoundSuffix path ext suffixes.
Proof.
  induction suffixes as [|s r IH]; simpl; [reflexivity|].
  destruct (Js.endsWith path (s +:+ ext)); [reflexivity | exact IH].
Qed.

Lemma firstCompoundSuffix_truthy path ext suffixes compound :
  Forall (fun s => s ≠ "") suffixes ->
  firstCompoundSuffix path ext suffixes = Some compound ->
  Js.truthy compound = true.
Proof.
  induction 1 as [|s r Hs _ IH]; simpl; [discriminate|].
  destruct (Js.endsWith path (s +:+ ext)); [|exact IH].
  intros [= <-]. destruct s; [congruence | reflexivity].
Qed.

Lemma specSuffixes_nonempty : Forall (fun s => s ≠ "") specSuffixes.
Proof. repeat constructor; discriminate. Qed.

(** the path [transformSpec] works on: on win32 the separators are
    converted first *)
Lemma transformSpec_absolute `{NodePath} projectRoot path testingType
    commonRoot platform sep :
  absolute (transformSpec projectRoot path testingType commonRoot platform sep)
  = if String.eqb platform "win32" then toPosix path sep else path.
Proof. reflexivity. Qed.

(** C6: for every path, [specFileExtension] is the first of [.spec],
    [.test], [-spec], [-test], [.cy] -- each followed by the file
    extension of the path, in that order -- that the path ends with, and
    the file extension itself when the path ends with none of them.  The
    path is the one given, with its separators converted on win32; it is
    the path the descriptor carries, and the file extension is what
    [path.extname] gives for it. *)
Theorem transformSpec_specFileExtension `{NodePath} projectRoot path
    testingType commonRoot platform sep :
  let p := if String.eqb platform "win32" then toPosix path sep else path in
  let d := transformSpec projectRoot path testingType commonRoot platform sep in
  absolute d = p
  /\ fileExtension d = path_extname p
  /\ specFileExtension d = specFileExtension_spec p (path_extname p).
Proof.
  intros p d. split; [reflexivity|]. split; [reflexivity|].
  unfold d, transformSpec, specFileExtension_spec.
  cbn [specFileExtension fileExtension absolute]. fold p.
  change [".spec"; ".test"; "-spec"; "-test"; ".cy"] with specSuffixes.
  rewrite find_compound.
  destruct (firstCompoundSuffix _ _ specSuffixes) as [c|] eqn:E; simpl;
    [|reflexivity].
  now rewrite (firstCompoundSuffix_truthy _ _ _ _ specSuffixes_nonempty E).
Qed.

(** the first match, read as a relation: no earlier suffix matches *)
Lemma firstCompoundSuffix_first path ext suffixes i suffix :
  suffixes !! i = Some suffix ->
  Js.endsWith path (suffix +:+ ext) = true ->
  (forall j s, (j < i)%nat -> suffixes !! j = Some s ->
               Js.endsWith path (s +:+ ext) = false) ->
  firstCompoundSuffix path ext suffixes = Some (suffix +:+ ext).
Proof.
  revert i. induction suffixes as [|s r IH]; intros [|i] Hi He Hlt;
    simpl in *; try discriminate.
  - injection Hi as ->. now rewrite He.
  - rewrite (Hlt 0%nat s); [|lia|reflexivity].
    apply (IH i Hi He). intros j s' Hj Hs'. apply (Hlt (S j) s'); [lia|exact Hs'].
Qed.

Lemma firstCompoundSuffix_none path ext suffixes :
  (forall s, s ∈ suffixes -> Js.endsWith path (s +:+ ext) = false) ->
  firstCompoundSuffix path ext suffixes = None.
Proof.
  induction suffixes as [|s r IH]; intros Hall; simpl; [reflexivity|].
  rewrite Hall by constructor. apply IH. intros s' Hs'. apply Hall. now constructor.
Qed.

(** ** [transformSpec]: file name and base name *)

(** C3: [fileName] is [baseName] with its first occurrence of
    [specFileExtension] cut out, which need not be the one at the end:
    for [chart.js.adapter.js] the extensions are both [.js], the file name
    is [chart.adapter.js], and [fileName + specFileExtension] is not
    [baseName]. *)
Theorem transformSpec_fileName_first_occurrence
    (relative : string -> string -> string) (commonRoot : string) :
  let P := posix_path relative in
  let d := transformSpec "/proj" "/proj/cypress/e2e/chart.js.adapter.js" e2e
             commonRoot "linux" "/" in
  fileExtension d = ".js"
  /\ specFileExtension d = ".js"
  /\ Js.endsWith (specFileExtension d) (fileExtension d) = true
  /\ baseName d = "chart.js.adapter.js"
  /\ fileName d = "chart.adapter.js"
  /\ fileName d +:+ specFileExtension d ≠ baseName d.
Proof.
  intros P d.
  assert (Hd : d = {| fileExtension := ".js";
                      baseName := "chart.js.adapter.js";
                      fileName := "chart.adapter.js";
                      specFileExtension := ".js";
                      relativeToCommonRoot := relativeToCommonRoot d;
                      specType := spec_integration;
                      name := "cypress/e2e/chart.js.adapter.js";
                      relative := relative "/proj" "/proj/cypress/e2e/chart.js.adapter.js";
                      absolute := "/proj/cypress/e2e/chart.js.adapter.js" |}).
  { unfold d, transformSpec. f_equal; vm_compute; reflexivity. }
  rewrite Hd; cbn [fileExtension baseName fileName specFileExtension].
  repeat split; vm_compute; congruence.
Qed.

(** ** [getLongestCommonPrefixFromPaths] *)

(** C2: the two examples of the specification evaluate as stated, but a
    later path that is shorter than the first one and agrees with it on
    all of its own segments leaves [end] at the length of the first path:
    the whole first path comes back, which is not a prefix of the second
    path. *)
Theorem getLongestCommonPrefixFromPaths_shorter_later_path
    (relative : string -> string -> string) :
  let P := posix_path relative in
  getLongestCommonPrefixFromPaths ["/a/b/c.js"; "/a/b/d.js"] = "/a/b"
  /\ getLongestCommonPrefixFromPaths ["/a/b/c.js"; "/a/x/d.js"] = "/a"
  /\ getLongestCommonPrefixFromPaths ["a/b/c/d.js"; "a/b"] = "a/b/c/d.js"
  /\ Js.startsWith "a/b" (getLongestCommonPrefixFromPaths ["a/b/c/d.js"; "a/b"])
     = false.
Proof. intros P. repeat split; vm_compute; reflexivity. Qed.

(** ** [getLongestCommonPrefixFromPaths] on lists without the missed case *)

Lemma arr_get_delete_ne lcp i j : i ≠ j -> arr_get (arr_delete lcp i) j = arr_get lcp j.
Proof. intros Hne. unfold arr_get, arr_delete. now rewrite list_lookup_insert_ne. Qed.

Lemma arr_get_delete_eq lcp i : arr_get (arr_delete lcp i) i = None.
Proof.
  unfold arr_get, arr_delete.
  destruct (decide (i < length lcp)) as [Hlt | Hge].
  - now rewrite list_lookup_insert_eq.
  - rewrite list_insert_ge by lia. now rewrite lookup_ge_None_2 by lia.
Qed.

(** the inner loop: segments that agree are kept, the others become
    holes, and [end] is the least index that disagreed (or is unchanged
    when none did) *)
Lemma scanParts_inv pathParts n : forall end_ lcp,
  let r := scanParts pathParts n (end_, lcp) in
  length r.2 = length lcp
  /\ (forall i, n <= i \/ arr_get lcp i = pathParts !! i -> r.2 !! i = lcp !! i)
  /\ (forall i, i < n -> arr_get lcp i ≠ pathParts !! i ->
                arr_get r.2 i = None /\ r.1 <= i)
  /\ ((r.1 = end_ /\ forall i, i < n -> arr_get lcp i = pathParts !! i)
      \/ (r.1 < n /\ arr_get lcp r.1 ≠ pathParts !! r.1)).
Proof.
  induction n as [|n IH]; intros end_ lcp; cbn [scanParts].
  - cbn. split; [reflexivity|]. split; [reflexivity|]. split; [intros; lia|].
    left. split; [reflexivity | intros; lia].
  - destruct (decide (arr_get lcp n = pathParts !! n)) as [Heq | Hne].
    + destruct (IH end_ lcp) as (HA & HB1 & HB2 & HC).
      split; [exact HA|]. split; [|split].
      * intros i [Hi | Hi]; apply HB1; [left; lia | now right].
      * intros i Hi Hd. apply HB2; [|exact Hd].
        destruct (decide (i = n)) as [-> | ?]; [contradiction | lia].
      * destruct HC as [[He Hall] | [Hlt Hd]]; [left | right].
        -- split; [exact He|]. intros i Hi.
           destruct (decide (i = n)) as [-> | ?]; [exact Heq | apply Hall; lia].
        -- split; [lia | exact Hd].
    + destruct (IH n (arr_delete lcp n)) as (HA & HB1 & HB2 & HC).
      split; [rewrite HA; apply length_insert|]. split; [|split].
      * intros i Hi.
        assert (Hin : i ≠ n) by (destruct Hi; [lia | congruence]).
        rewrite HB1.
        -- unfold arr_delete. now rewrite list_lookup_insert_ne.
        -- destruct Hi as [Hi | Hi]; [left; lia | right].
           now rewrite arr_get_delete_ne.
      * intros i Hi Hd. destruct (decide (i = n)) as [-> | Hin].
        -- split.
           ++ unfold arr_get at 1. rewrite HB1 by (left; lia).
              apply arr_get_delete_eq.
           ++ destruct HC as [[-> _] | [Hlt _]]; lia.
        -- apply HB2; [lia|]. now rewrite arr_get_delete_ne.
      * right. destruct HC as [[He _] | [Hlt Hd]].
        -- rewrite He. split; [lia | exact Hne].
        -- split; [lia|]. rewrite arr_get_delete_ne in Hd by lia. exact Hd.
Qed.

Lemma scanParts_step cur pathParts st :
  lcpState cur st ->
  ¬ pathParts `prefix_of` cur ->
  lcpState (max_prefix cur pathParts).2
           (scanParts pathParts (length pathParts) st).
Proof.
  destruct st as [end_ lcp]. intros (He & Hcur & Hend) Hnp. cbn [fst snd] in *.
  destruct (max_prefix cur pathParts) as [[k1 k2] k3] eqn:Emp. cbn [snd].
  pose proof (max_prefix_fst_alt _ _ _ _ _ Emp) as E1.
  pose proof (max_prefix_snd_alt _ _ _ _ _ Emp) as E2.
  destruct k2 as [|y k2].
  { exfalso. apply Hnp. rewrite E2, E1, app_nil_r. now apply prefix_app_r. }
  assert (Hlen : length k3 < length pathParts).
  { rewrite E2, length_app. cbn. lia. }
  assert (Hq : pathParts !! length k3 = Some y).
  { rewrite E2. now rewrite list_lookup_middle. }
  assert (Hsame : forall i, i < length k3 -> arr_get lcp i = pathParts !! i).
  { intros i Hi. destruct (lookup_lt_is_Some_2 k3 i Hi) as [x Hx].
    unfold arr_get. rewrite (Hcur i x).
    - cbn. rewrite E2. now rewrite lookup_app_l_Some with (x := x).
    - rewrite E1. now apply lookup_app_l_Some. }
  assert (Hdiff : arr_get lcp (length k3) ≠ pathParts !! length k3).
  { rewrite Hq. destruct k1 as [|x k1].
    - rewrite app_nil_r in E1. subst cur. rewrite <- He, Hend. discriminate.
    - unfold arr_get. rewrite (Hcur (length k3) x).
      + cbn. intros [= ->]. exact (max_prefix_max_snoc _ _ _ _ _ _ _ Emp eq_refl).
      + rewrite E1. now rewrite list_lookup_middle. }
  destruct (scanParts_inv pathParts (length pathParts) end_ lcp)
    as (HA & HB1 & HB2 & HC).
  set (r := scanParts pathParts (length pathParts) (end_, lcp)) in *.
  destruct (HB2 _ Hlen Hdiff) as [Hhole Hle].
  assert (Hr : r.1 = length k3).
  { destruct HC as [[_ Hall] | [Hlt Hd]].
    - exfalso. apply Hdiff. now apply Hall.
    - destruct (decide (r.1 < length k3)) as [Hlt' | ?]; [|lia].
      exfalso. apply Hd. now apply Hsame. }
  split; [exact Hr|]. split.
  - intros i x Hx. rewrite HB1.
    + apply Hcur. rewrite E1. now apply lookup_app_l_Some.
    + right. apply Hsame. now apply lookup_lt_Some in Hx.
  - now rewrite Hr.
Qed.

Lemma scanPaths_common rest : forall cur st,
  lcpState cur st ->
  st.2 ≠ [] ->
  Forall (fun p => forall k, k `prefix_of` cur -> ¬ getPathParts p `prefix_of` k)
         rest ->
  exists st', scanPaths rest st = Some st'
              /\ lcpState (commonSegments cur (getPathParts <$> rest)) st'.
Proof.
  induction rest as [|p rest IH]; intros cur st Hst Hne Hall; cbn.
  - eauto.
  - apply Forall_cons in Hall as [Hp Hall].
    pose proof (scanParts_step cur (getPathParts p) st Hst (Hp cur (reflexivity _)))
      as Hst'.
    destruct st as [end_ lcp].
    destruct (scanParts_inv (getPathParts p) (length (getPathParts p)) end_ lcp)
      as (HA & _).
    destruct (decide _) as [Hz | _].
    { exfalso. rewrite HA in Hz. cbn in Hne. destruct lcp; [congruence | discriminate]. }
    apply IH; [exact Hst' | | ].
    + intros Hnil. rewrite Hnil in HA. cbn in Hne, HA.
      destruct lcp; [congruence | discriminate].
    + eapply Forall_impl; [exact Hall|]. cbn. intros q Hq k Hk.
      apply Hq. etransitivity; [exact Hk|]. apply max_prefix_fst_prefix.
Qed.

Lemma split_on_go_nonempty is_sep s : forall cur, Js.split_on_go is_sep cur s ≠ [].
Proof.
  induction s as [|c s IH]; intros cur; cbn; [discriminate|].
  destruct (is_sep c); [discriminate | apply IH].
Qed.

Lemma getPathParts_nonempty pathname : getPathParts pathname ≠ [].
Proof. apply split_on_go_nonempty. Qed.

(** [commonSegments] is the longest list of segments that starts the
    first path and every later one *)
Lemma commonSegments_prefix others : forall parts0,
  commonSegments parts0 others `prefix_of` parts0.
Proof.
  induction others as [|q others IH]; intros parts0; cbn; [reflexivity|].
  etransitivity; [apply IH | apply max_prefix_fst_prefix].
Qed.

Lemma commonSegments_shared others : forall parts0,
  Forall (fun q => commonSegments parts0 others `prefix_of` q) others.
Proof.
  induction others as [|q others IH]; intros parts0; cbn; constructor.
  - etransitivity; [apply commonSegments_prefix | apply max_prefix_snd_prefix].
  - apply IH.
Qed.

Lemma commonSegments_longest others : forall parts0 k,
  k `prefix_of` parts0 ->
  Forall (fun q => k `prefix_of` q) others ->
  k `prefix_of` commonSegments parts0 others.
Proof.
  induction others as [|q others IH]; intros parts0 k Hk Hall; cbn; [exact Hk|].
  apply Forall_cons in Hall as [Hq Hall].
  apply IH; [now apply max_prefix_max | exact Hall].
Qed.

Lemma join_holes_Some sep l : Js.join_holes sep (Some <$> l) = Js.join sep l.
Proof.
  unfold Js.join_holes. f_equal.
  induction l as [|x l IH]; [reflexivity|]. cbn. now rewrite IH.
Qed.

Lemma lcpState_take cur st :
  lcpState cur st -> take st.1 st.2 = Some <$> cur.
Proof.
  destruct st as [end_ lcp]. intros (He & Hcur & Hend). cbn [fst snd] in *.
  apply list_eq. intros i. rewrite list_lookup_fmap.
  destruct (decide (i < end_)) as [Hlt | Hge].
  - rewrite lookup_take_lt by exact Hlt.
    destruct (lookup_lt_is_Some_2 cur i) as [x Hx]; [lia|].
    now rewrite Hx, (Hcur i x Hx).
  - rewrite lookup_take_ge by lia. now rewrite lookup_ge_None_2 by lia.
Qed.

(** When no later path is, segment by segment, a prefix of the first one
    (as is the case for the paths of distinct files), the result is the
    longest sequence of leading segments common to all the paths, joined
    with the path separator. *)
Theorem getLongestCommonPrefixFromPaths_common_prefix `{NodePath} p0 rest :
  rest ≠ [] ->
  Forall (fun p => ¬ getPathParts p `prefix_of` getPathParts p0) rest ->
  getLongestCommonPrefixFromPaths (p0 :: rest)
  = Js.join path_sep
      (commonSegments (getPathParts p0) (getPathParts <$> rest)).
Proof.
  intros Hrest Hall. unfold getLongestCommonPrefixFromPaths.
  destruct (Js.truthy p0) eqn:Etr; cbn [negb].
  - destruct rest as [|p1 rest']; [contradiction|].
    set (rest := p1 :: rest') in *.
    destruct (scanPaths_common rest (getPathParts p0)
                (length (getPathParts p0), Some <$> getPathParts p0))
      as ([end_ lcp'] & Hscan & Hst).
    + split; [reflexivity|]. cbn [fst snd]. split.
      * intros i x Hx. now rewrite list_lookup_fmap, Hx.
      * unfold arr_get. rewrite lookup_ge_None_2; [reflexivity|].
        now rewrite length_fmap.
    + cbn [snd]. intros Hnil. apply fmap_nil_inv in Hnil.
      exact (getPathParts_nonempty _ Hnil).
    + eapply Forall_impl; [exact Hall|]. cbn. intros q Hq k Hk Hqk.
      apply Hq. etransitivity; [exact Hqk | exact Hk].
    + rewrite Hscan. apply lcpState_take in Hst. cbn [fst snd] in Hst.
      rewrite Hst. apply join_holes_Some.
  - assert (p0 = "") as ->.
    { unfold Js.truthy in Etr. apply negb_false_iff, String.eqb_eq in Etr. exact Etr. }
    pose proof (commonSegments_prefix (getPathParts <$> rest) (getPathParts ""))
      as [k Hk].
    change (getPathParts "") with [""] in Hk.
    destruct (commonSegments _ _) as [|x [|y l]]; [reflexivity | | ].
    + injection Hk as <- _. reflexivity.
    + discriminate Hk.
Qed.

(** ** [defaultSpecFileName] *)

Lemma specPatterns_ok this config :
  getConfig this = Ok config ->
  specPatterns this
  = Ok (toArray (cfg_specPattern config), toArray (cfg_excludeSpecPattern config)).
Proof. unfold specPatterns. now intros ->. Qed.

Lemma templatePath_slash testingType ext :
  templatePath testingType ext +:+ "/" ≠ templatePath testingType ext.
Proof. destruct testingType, ext; discriminate. Qed.

(** C1: with a project and a testing type set, and no spec pattern
    configured or the first one equal to the built-in default of the
    testing type, [defaultSpecFileName] returns the template followed by a
    [/]: [cypress/<testingType>/filename.cy.<ext>/], which is not the
    template path [cypress/<testingType>/filename.cy.<ext>]. *)
Theorem defaultSpecFileName_default_trailing_slash `{NodePath} `{Libs}
    this project testingType config :
  currentProject (ctx this) = Some project ->
  Js.truthy project = true ->
  currentTestingType (ctx this) = Some testingType ->
  getConfig this = Ok config ->
  includePatterns config = []
  \/ head (includePatterns config) = Some (defaultSpecPattern testingType) ->
  defaultSpecFileName this
  = Ok (Some (templatePath testingType (fileExtensionToUse (ctx this)) +:+ "/"))
  /\ defaultSpecFileName this
     ≠ Ok (Some (templatePath testingType (fileExtensionToUse (ctx this)))).
Proof.
  intros Hp Ht Htt Hc Hpat.
  assert (E : defaultSpecFileName this
              = Ok (Some (templatePath testingType
                            (fileExtensionToUse (ctx this)) +:+ "/"))).
  { unfold defaultSpecFileName. rewrite Hp, Htt, Ht. cbn [negb].
    rewrite (specPatterns_ok _ _ Hc). cbn [mbind Res_bind].
    fold (includePatterns config).
    assert (Etpl : forall t : TestingType,
               "cypress/" +:+ testingType_tpl (Some t) +:+ "/filename.cy."
                 +:+ fileExtension_str (fileExtensionToUse (ctx this)) +:+ "/"
               = templatePath t (fileExtensionToUse (ctx this)) +:+ "/").
    { intros t. destruct t, (fileExtensionToUse (ctx this)); reflexivity. }
    rewrite Etpl.
    destruct Hpat as [-> | ->]; [reflexivity|].
    cbn [try_catch].
    destruct (negb (Js.truthy (defaultSpecPattern testingType))); [reflexivity|].
    destruct (decide _) as [_|Hne]; [reflexivity | congruence]. }
  split; [exact E|].
  rewrite E. intros Heq.
  apply (templatePath_slash testingType (fileExtensionToUse (ctx this))).
  congruence.
Qed.

(** C5: with a project and a testing type set, a first spec pattern that
    is not the built-in default of the testing type, and a non-empty
    longest common prefix of the relative paths of the known specs,
    [defaultSpecFileName] returns that prefix. *)
Theorem defaultSpecFileName_from_specs `{NodePath} `{Libs}
    this project testingType config pattern :
  currentProject (ctx this) = Some project ->
  Js.truthy project = true ->
  currentTestingType (ctx this) = Some testingType ->
  getConfig this = Ok config ->
  head (includePatterns config) = Some pattern ->
  Js.truthy pattern = true ->
  pattern ≠ defaultSpecPattern testingType ->
  getLongestCommonPrefixFromPaths (relative <$> _specs this) ≠ "" ->
  defaultSpecFileName this
  = Ok (Some (getLongestCommonPrefixFromPaths (relative <$> _specs this))).
Proof.
  intros Hp Ht Htt Hc Hpat Hpt Hne Hlcp.
  unfold defaultSpecFileName. rewrite Hp, Htt, Ht. cbn [negb].
  rewrite (specPatterns_ok _ _ Hc). cbn [mbind Res_bind].
  fold (includePatterns config). rewrite Hpat, Hpt. cbn [negb].
  destruct (decide _) as [Heq|_]; [contradiction|].
  destruct (getLongestCommonPrefixFromPaths _) as [|c s]; [contradiction|].
  reflexivity.
Qed.

(** ** [matchesSpecPattern] *)

Lemma returnOnMatch_Exists `{Libs} specFile patterns ret :
  Exists (fun p => minimatch specFile p = true) patterns ->
  returnOnMatch specFile patterns ret = Some ret.
Proof.
  induction 1 as [p l Hp | p l _ IH]; simpl.
  - now rewrite Hp.
  - rewrite IH. now destruct (minimatch specFile p).
Qed.

Lemma returnOnMatch_none `{Libs} specFile patterns ret :
  ¬ Exists (fun p => minimatch specFile p = true) patterns ->
  returnOnMatch specFile patterns ret = None.
Proof.
  induction patterns as [|p l IH]; intros Hno; simpl; [reflexivity|].
  destruct (minimatch specFile p) eqn:E.
  - exfalso. apply Hno. now left.
  - apply IH. intros Hex. apply Hno. now right.
Qed.

(** C4: with a project and a testing type active, [matchesSpecPattern]
    returns [false] as soon as one exclude glob matches the path, whatever
    the include patterns; when no exclude glob matches it returns [true]
    exactly when some include pattern matches. *)
Theorem matchesSpecPattern_exclusion_wins `{Libs}
    this project testingType config specFile :
  currentProject (ctx this) = Some project ->
  Js.truthy project = true ->
  currentTestingType (ctx this) = Some testingType ->
  getConfig this = Ok config ->
  exists b,
    matchesSpecPattern this specFile = Ok b
    /\ (Exists (fun p => minimatch specFile p = true) (excludePatterns config)
        -> b = false)
    /\ (¬ Exists (fun p => minimatch specFile p = true) (excludePatterns config)
        -> (b = true
            <-> Exists (fun p => minimatch specFile p = true)
                       (includePatterns config))).
Proof.
  intros Hp Ht Htt Hc.
  unfold matchesSpecPattern, falsy_str. rewrite Hp, Htt, Ht.
  rewrite bool_decide_eq_true_2 by eauto. cbn [negb orb].
  rewrite (specPatterns_ok _ _ Hc). cbn [mbind Res_bind].
  fold (includePatterns config) (excludePatterns config).
  destruct (decide (Exists (fun p => minimatch specFile p = true)
                      (excludePatterns config))) as [Hex | Hex].
  - rewrite (returnOnMatch_Exists _ _ _ Hex).
    exists false. split; [reflexivity|]. split; [reflexivity | contradiction].
  - rewrite (returnOnMatch_none _ _ _ Hex).
    destruct (decide (Exists (fun p => minimatch specFile p = true)
                        (includePatterns config))) as [Hin | Hin].
    + rewrite (returnOnMatch_Exists _ _ _ Hin).
      exists true. split; [reflexivity|]. split; [contradiction|]. tauto.
    + rewrite (returnOnMatch_none _ _ _ Hin).
      exists false. split; [reflexivity|]. split; [reflexivity|].
      intros _. split; [discriminate | contradiction].
Qed.

(** ** The spec watcher *)

Lemma stopSpecWatcher_eq `{Libs} this :
  stopSpecWatcher this
  = ({| ctx := ctx this; _specWatcher := None; _specs := _specs this;
        effects := closeEffects this |}, Ok ()).
Proof.
  unfold stopSpecWatcher, closeEffects.
  destruct this as [c [w|] s e]; cbn [_specWatcher]; [|reflexivity].
  destruct (chokidar_close w); reflexivity.
Qed.

(** C9: [stopSpecWatcher] returns normally whatever [close()] does, and
    the rejection of [close()] goes nowhere: all it leaves is the field
    set to [null] and the call of [close()] on the watcher held.  A second
    call right after the first returns normally and changes nothing, and
    so does a call on an object that holds no watcher. *)
Theorem stopSpecWatcher_never_raises `{Libs} this :
  let this1 := (stopSpecWatcher this).1 in
  (stopSpecWatcher this).2 = Ok ()
  /\ _specWatcher this1 = None
  /\ effects this1 = closeEffects this
  /\ stopSpecWatcher this1 = (this1, Ok ())
  /\ stopSpecWatcher (withWatcher this None) = (withWatcher this None, Ok ()).
Proof.
  intros this1. unfold this1. rewrite stopSpecWatcher_eq. cbn [fst snd].
  repeat split.
Qed.

(** C8: without a current project [startSpecWatcher] throws: the call
    ends in the error, no watcher is stored, and nothing was done but to
    close the watcher held before. *)
Theorem startSpecWatcher_without_project `{Libs} this projectRoot testingType
    specPattern excludeSpecPattern additionalIgnore :
  currentProject (ctx this) = None ->
  let r := startSpecWatcher this projectRoot testingType specPattern
             excludeSpecPattern additionalIgnore in
  r.2 = Throw noProjectError
  /\ _specWatcher r.1 = None
  /\ effects r.1 = closeEffects this.
Proof.
  intros Hp r. unfold r, startSpecWatcher.
  rewrite stopSpecWatcher_eq. cbn [ctx]. rewrite Hp.
  repeat split.
Qed.

(** C10: [startSpecWatcher] calls [stopSpecWatcher] before it looks at the
    current project.  When it throws for want of a project, the object is
    left as [stopSpecWatcher] left it: the watcher held before has been
    closed and the field is [null], so the object is not what it was
    before the call. *)
Theorem startSpecWatcher_stops_before_throwing `{Libs} this w projectRoot
    testingType specPattern excludeSpecPattern additionalIgnore :
  currentProject (ctx this) = None ->
  _specWatcher this = Some w ->
  let r := startSpecWatcher this projectRoot testingType specPattern
             excludeSpecPattern additionalIgnore in
  r.2 = Throw noProjectError
  /\ r.1 = (stopSpecWatcher this).1
  /\ _specWatcher r.1 = None
  /\ effects r.1 = ev_close w :: effects this
  /\ r.1 ≠ this.
Proof.
  intros Hp Hw r. unfold r, startSpecWatcher.
  rewrite stopSpecWatcher_eq. cbn [ctx]. rewrite Hp.
  cbn [falsy_str fst snd _specWatcher effects].
  unfold closeEffects. rewrite Hw.
  repeat split. intros Heq. rewrite <- Heq in Hw. discriminate.
Qed.

(** ** [getLongestCommonPrefixFromGlob] *)

(** C7: for the glob [cypress/e2e/**/*.cy.js], the testing type [e2e] and
    the extension [js], [getLongestCommonPrefixFromGlob] returns
    [cypress/e2e/filename.cy.js]: a string that ends in [.cy.js] and whose
    directory portion contains [e2e]. *)
Theorem getLongestCommonPrefixFromGlob_e2e_example `{Libs} :
  e2eGlobParsed -> bracesKeepPlain -> mmSelects -> randexpLiteral ->
  exists s,
    getLongestCommonPrefixFromGlob "cypress/e2e/**/*.cy.js" e2e (Some js)
    = Ok (Some s)
    /\ s = "cypress/e2e/filename.cy.js"
    /\ Js.endsWith s ".cy.js" = true
    /\ Js.includes (dirPortion s) "e2e" = true.
Proof.
  intros Hparse Hbraces Hmm Hgen.
  exists "cypress/e2e/filename.cy.js".
  split; [|repeat split].
  unfold getLongestCommonPrefixFromGlob. rewrite Hparse.
  cbn [mbind Res_bind is_glob negb pg_dirname pg_filename pg_extname pg_ext].
  match goal with |- context [mm_braces ?g] =>
    replace g with "cypress/e2e/filename.cy.js" by (vm_compute; reflexivity)
  end.
  rewrite (Hbraces "cypress/e2e/filename.cy.js") by reflexivity.
  cbn [head fileExtension_str].
  assert (Hfin : match mm ["cypress/e2e/filename.cy.js"] ("*." +:+ "js") with
                 | [] => Some "cypress/e2e/filename.cy.js"
                 | g :: _ => Some g
                 end = Some "cypress/e2e/filename.cy.js").
  { destruct (mm _ _) as [|g l] eqn:E; [reflexivity|].
    assert (Hg : g ∈ ["cypress/e2e/filename.cy.js"]).
    { apply (Hmm _ ("*." +:+ "js")). rewrite E. left. }
    apply list_elem_of_singleton in Hg. now subst g. }
  rewrite Hfin. cbn [Js.truthy String.eqb negb].
  change (Js.truthy "cypress/e2e/filename.cy.js") with true. cbn [negb].
  rewrite (Hgen "cypress/e2e/filename.cy.js") by (vm_compute; reflexivity).
  reflexivity.
Qed.

(** ** The statements at concrete inputs *)

Lemma defaultSpecFileName_default_trailing_slash_witness :
  @defaultSpecFileName Ref.path Ref.libs
    (Ref.source (Some "/proj") (Ref.config cfg_unset cfg_unset) None [])
  = Ok (Some "cypress/e2e/filename.cy.js/")
  /\ @defaultSpecFileName Ref.path Ref.libs
       (Ref.source (Some "/proj") (Ref.config cfg_unset cfg_unset) None [])
     ≠ Ok (Some "cypress/e2e/filename.cy.js").
Proof.
  apply (@defaultSpecFileName_default_trailing_slash Ref.path Ref.libs
           (Ref.source (Some "/proj") (Ref.config cfg_unset cfg_unset) None [])
           "/proj" e2e
           {| cfg_specPattern := cfg_unset; cfg_excludeSpecPattern := cfg_unset |}).
  - reflexivity.
  - reflexivity.
  - reflexivity.
  - reflexivity.
  - left. reflexivity.
Defined.

Lemma defaultSpecFileName_from_specs_witness :
  let specs :=
    [@transformSpec Ref.path "/proj" "/proj/src/ui/a.cy.js" e2e "/proj/src/ui"
       "linux" "/";
     @transformSpec Ref.path "/proj" "/proj/src/ui/b.cy.js" e2e "/proj/src/ui"
       "linux" "/"] in
  @defaultSpecFileName Ref.path Ref.libs
    (Ref.source (Some "/proj") (Ref.config (cfg_one "src/**/*.cy.js") cfg_unset)
       None specs)
  = Ok (Some "src/ui").
Proof.
  intros specs.
  apply (@defaultSpecFileName_from_specs Ref.path Ref.libs
           (Ref.source (Some "/proj")
              (Ref.config (cfg_one "src/**/*.cy.js") cfg_unset) None specs)
           "/proj" e2e
           {| cfg_specPattern := cfg_one "src/**/*.cy.js";
              cfg_excludeSpecPattern := cfg_unset |} "src/**/*.cy.js").
  - reflexivity.
  - reflexivity.
  - reflexivity.
  - reflexivity.
  - reflexivity.
  - reflexivity.
  - vm_compute. discriminate.
  - vm_compute. discriminate.
Defined.

Lemma matchesSpecPattern_exclusion_wins_witness :
  exists b,
    @matchesSpecPattern Ref.libs
      (Ref.source (Some "/proj")
         (Ref.config (cfg_many ["**/*.cy.js"]) (cfg_one "**/*.skip.cy.js"))
         None [])
      "cypress/e2e/a.skip.cy.js" = Ok b
    /\ b = false.
Proof.
  destruct (@matchesSpecPattern_exclusion_wins Ref.libs
              (Ref.source (Some "/proj")
                 (Ref.config (cfg_many ["**/*.cy.js"]) (cfg_one "**/*.skip.cy.js"))
                 None [])
              "/proj" e2e
              {| cfg_specPattern := cfg_many ["**/*.cy.js"];
                 cfg_excludeSpecPattern := cfg_one "**/*.skip.cy.js" |}
              "cypress/e2e/a.skip.cy.js"
              eq_refl eq_refl eq_refl eq_refl) as (b & Hb & Hex & _).
  exists b. split; [exact Hb|].
  apply Hex. left. reflexivity.
Defined.

Lemma startSpecWatcher_without_project_witness :
  (@startSpecWatcher Ref.libs
     (Ref.source None (Ref.config cfg_unset cfg_unset) None [])
     "/proj" e2e ["**/*.cy.js"] [] []).2
  = Throw "Cannot start spec watcher without current project".
Proof.
  apply (@startSpecWatcher_without_project Ref.libs
           (Ref.source None (Ref.config cfg_unset cfg_unset) None [])
           "/proj" e2e ["**/*.cy.js"] [] []).
  reflexivity.
Defined.

Lemma startSpecWatcher_stops_before_throwing_witness :
  let this := Ref.source None (Ref.config cfg_unset cfg_unset)
                (Some Ref.watcher) [] in
  let r := @startSpecWatcher Ref.libs this "/proj" e2e ["**/*.cy.js"] [] [] in
  r.2 = Throw noProjectError
  /\ r.1 = (@stopSpecWatcher Ref.libs this).1
  /\ _specWatcher r.1 = None
  /\ effects r.1 = [ev_close Ref.watcher]
  /\ r.1 ≠ this.
Proof.
  intros this.
  apply (@startSpecWatcher_stops_before_throwing Ref.libs this Ref.watcher
           "/proj" e2e ["**/*.cy.js"] [] []).
  - reflexivity.
  - reflexivity.
Defined.

Lemma unescape_escaped s :
  forallb_str isLiteralChar s = true ->
  Ref.unescape (Js.replace_all_char "." "\." s) = s.
Proof.
  induction s as [|c s IH]; [reflexivity|].
  cbn [forallb_str]. intros [Hc Hs]%andb_prop.
  cbn [Js.replace_all_char].
  destruct (Ascii.eqb c ".") eqn:Edot.
  - apply Ascii.eqb_eq in Edot. subst c.
    change (String "." (Ref.unescape (Js.replace_all_char "." "\." s))
            = String "." s).
    f_equal. exact (IH Hs).
  - change (Ref.unescape (String c (Js.replace_all_char "." "\." s))
            = String c s).
    cbn [Ref.unescape]. destruct (Ascii.eqb c "\") eqn:Ebs.
    + apply Ascii.eqb_eq in Ebs. subst c. discriminate Hc.
    + f_equal. exact (IH Hs).
Qed.

Lemma getLongestCommonPrefixFromGlob_e2e_example_witness :
  exists s,
    @getLongestCommonPrefixFromGlob Ref.libs "cypress/e2e/**/*.cy.js" e2e (Some js)
    = Ok (Some s)
    /\ s = "cypress/e2e/filename.cy.js"
    /\ Js.endsWith s ".cy.js" = true
    /\ Js.includes (dirPortion s) "e2e" = true.
Proof.
  apply (@getLongestCommonPrefixFromGlob_e2e_example Ref.libs).
  - reflexivity.
  - intros glob _. reflexivity.
  - intros l pattern x Hx. apply list_elem_of_filter in Hx. exact (proj2 Hx).
  - intros s Hs. cbn [randexp_gen Ref.libs]. f_equal. exact (unescape_escaped s Hs).
Defined.

(** * Further properties *)

(** ** [getLongestCommonPrefixFromPaths], for every list of paths *)

Lemma scanParts_length pathParts n st :
  length (scanParts pathParts n st).2 = length st.2.
Proof. destruct st as [e lcp]. apply (scanParts_inv pathParts n e lcp). Qed.

Lemma scanPaths_is_Some rest : forall st,
  st.2 ≠ [] -> is_Some (scanPaths rest st).
Proof.
  induction rest as [|p rest IH]; intros st Hne; cbn; [eauto|].
  pose proof (scanParts_length (getPathParts p) (length (getPathParts p)) st) as Hl.
  destruct (decide _) as [Hz | _].
  - exfalso. rewrite Hl in Hz. destruct (st.2); [congruence | discriminate].
  - apply IH. intros Hnil. rewrite Hnil in Hl.
    destruct (st.2); [congruence | discriminate].
Qed.

(** X4: the early [return ''] inside the loop is never taken: [delete]
    keeps the length of [lcp], which starts out with at least one
    segment, so the loop always runs to its end. *)
Theorem scanPaths_never_returns_early p0 rest :
  is_Some (scanPaths rest (length (getPathParts p0), Some <$> getPathParts p0)).
Proof.
  apply scanPaths_is_Some. cbn [snd]. intros Hnil. apply fmap_nil_inv in Hnil.
  exact (getPathParts_nonempty _ Hnil).
Qed.

(** a later path that is a prefix of the candidate changes nothing *)
Lemma scanParts_keep cur pathParts st :
  lcpState cur st ->
  pathParts `prefix_of` cur ->
  scanParts pathParts (length pathParts) st = st.
Proof.
  destruct st as [end_ lcp]. intros (He & Hcur & Hend) Hpre. cbn [fst snd] in *.
  assert (Hsame : forall i, i < length pathParts ->
                            arr_get lcp i = pathParts !! i).
  { intros i Hi. destruct (lookup_lt_is_Some_2 pathParts i Hi) as [x Hx].
    unfold arr_get. rewrite (Hcur i x); [now rewrite Hx|].
    exact (prefix_lookup_Some _ _ _ _ Hx Hpre). }
  destruct (scanParts_inv pathParts (length pathParts) end_ lcp)
    as (HA & HB1 & _ & HC).
  destruct (scanParts pathParts (length pathParts) (end_, lcp)) as [e' lcp'].
  cbn [fst snd] in *. f_equal.
  - destruct HC as [[-> _] | [Hlt Hd]]; [reflexivity|].
    exfalso. apply Hd. now apply Hsame.
  - apply list_eq. intros i. apply HB1.
    destruct (decide (length pathParts <= i)); [now left | right].
    apply Hsame. lia.
Qed.

Lemma scanParts_keepOrCut cur pathParts st :
  lcpState cur st ->
  lcpState (keepOrCut cur pathParts)
           (scanParts pathParts (length pathParts) st).
Proof.
  intros Hst. unfold keepOrCut. destruct (decide _) as [Hpre | Hnp].
  - now rewrite (scanParts_keep cur pathParts st Hst Hpre).
  - now apply scanParts_step.
Qed.

Lemma scanPaths_kept rest : forall cur st,
  lcpState cur st ->
  st.2 ≠ [] ->
  exists st', scanPaths rest st = Some st'
              /\ lcpState (keptSegments cur (getPathParts <$> rest)) st'.
Proof.
  induction rest as [|p rest IH]; intros cur st Hst Hne; cbn; [eauto|].
  pose proof (scanParts_length (getPathParts p) (length (getPathParts p)) st) as Hl.
  assert (Hne' : (scanParts (getPathParts p) (length (getPathParts p)) st).2 ≠ []).
  { intros Hnil. rewrite Hnil in Hl. destruct (st.2); [congruence | discriminate]. }
  destruct (decide _) as [Hz | _].
  { exfalso. apply Hne'. now apply nil_length_inv. }
  apply IH; [|exact Hne']. now apply scanParts_keepOrCut.
Qed.

Lemma keepOrCut_prefix cur parts : keepOrCut cur parts `prefix_of` cur.
Proof.
  unfold keepOrCut. destruct (decide _); [reflexivity | apply max_prefix_fst_prefix].
Qed.

Lemma keptSegments_prefix others : forall parts0,
  keptSegments parts0 others `prefix_of` parts0.
Proof.
  induction others as [|q others IH]; intros parts0; cbn; [reflexivity|].
  etransitivity; [apply IH | apply keepOrCut_prefix].
Qed.

Lemma lcpState_init parts0 :
  lcpState parts0 (length parts0, Some <$> parts0).
Proof.
  split; [reflexivity|]. cbn [fst snd]. split.
  - intros i x Hx. now rewrite list_lookup_fmap, Hx.
  - unfold arr_get. rewrite lookup_ge_None_2; [reflexivity|].
    now rewrite length_fmap.
Qed.

Lemma join_prefix_of_empty sep k : k `prefix_of` [""] -> Js.join sep k = "".
Proof.
  intros [r Hr]. destruct k as [|x [|y l]]; [reflexivity | | discriminate Hr].
  injection Hr as <- _. reflexivity.
Qed.

Lemma scanned_kept_segments `{NodePath} p0 p1 rest :
  getLongestCommonPrefixFromPaths (p0 :: p1 :: rest)
  = Js.join path_sep
      (keptSegments (getPathParts p0) (getPathParts <$> p1 :: rest)).
Proof.
  unfold getLongestCommonPrefixFromPaths.
  destruct (Js.truthy p0) eqn:Etr; cbn [negb].
  - destruct (scanPaths_kept (p1 :: rest) (getPathParts p0)
                (length (getPathParts p0), Some <$> getPathParts p0))
      as ([end_ lcp'] & Hscan & Hst).
    + apply lcpState_init.
    + cbn [snd]. intros Hnil. apply fmap_nil_inv in Hnil.
      exact (getPathParts_nonempty _ Hnil).
    + rewrite Hscan. apply lcpState_take in Hst. cbn [fst snd] in Hst.
      rewrite Hst. apply join_holes_Some.
  - assert (p0 = "") as ->.
    { unfold Js.truthy in Etr. apply negb_false_iff, String.eqb_eq in Etr. exact Etr. }
    symmetry. apply join_prefix_of_empty.
    apply (keptSegments_prefix _ (getPathParts "")).
Qed.

(** X1: what the function computes on two or more paths, whatever they
    are: the segments of the first path are the candidate; each later
    path in turn cuts the candidate down to the segments it shares with
    it from the start -- unless that path is itself a prefix of the
    candidate, in which case the candidate is kept whole.  The result is
    the final candidate, joined with the path separator. *)
Theorem getLongestCommonPrefixFromPaths_kept_segments `{NodePath} p0 p1 rest :
  getLongestCommonPrefixFromPaths (p0 :: p1 :: rest)
  = Js.join path_sep
      (keptSegments (getPathParts p0) (getPathParts <$> p1 :: rest)).
Proof. apply scanned_kept_segments. Qed.

(** X3: whatever the paths, the result is made of leading segments of
    the first path: the first [n] of them, joined with the separator.
    Holes left by [delete] never reach the result. *)
Theorem getLongestCommonPrefixFromPaths_leading_segments `{NodePath} p0 rest :
  exists n, n <= length (getPathParts p0)
            /\ getLongestCommonPrefixFromPaths (p0 :: rest)
               = Js.join path_sep (take n (getPathParts p0)).
Proof.
  destruct rest as [|p1 rest].
  - unfold getLongestCommonPrefixFromPaths.
    destruct (Js.truthy p0); cbn [negb].
    + exists (length (getPathParts p0) - 1). split; [lia | reflexivity].
    + exists 0. split; [lia | reflexivity].
  - rewrite scanned_kept_segments.
    destruct (keptSegments_prefix (getPathParts <$> p1 :: rest) (getPathParts p0))
      as [r Hr].
    set (k := keptSegments (getPathParts p0) (getPathParts <$> p1 :: rest)) in *.
    exists (length k). rewrite Hr. split.
    + rewrite length_app. lia.
    + now rewrite take_app_length.
Qed.

(** X2: on two or more paths none of which (after the first) is, segment
    by segment, a prefix of the first, the result is the longest common
    prefix: it is made of segments that start every path, and any
    sequence of segments that starts every path starts it too. *)
Theorem getLongestCommonPrefixFromPaths_longest_shared `{NodePath} p0 rest :
  rest ≠ [] ->
  Forall (fun p => ¬ getPathParts p `prefix_of` getPathParts p0) rest ->
  exists k,
    getLongestCommonPrefixFromPaths (p0 :: rest) = Js.join path_sep k
    /\ Forall (fun p => k `prefix_of` getPathParts p) (p0 :: rest)
    /\ forall k', Forall (fun p => k' `prefix_of` getPathParts p) (p0 :: rest) ->
                  k' `prefix_of` k.
Proof.
  intros Hrest Hall.
  exists (commonSegments (getPathParts p0) (getPathParts <$> rest)).
  split; [now apply getLongestCommonPrefixFromPaths_common_prefix|]. split.
  - constructor; [apply commonSegments_prefix|].
    pose proof (commonSegments_shared (getPathParts <$> rest) (getPathParts p0))
      as Hs.
    rewrite Forall_fmap in Hs. exact Hs.
  - intros k' Hk'. apply Forall_cons in Hk' as [H0 Hr].
    apply commonSegments_longest; [exact H0|].
    rewrite Forall_fmap. exact Hr.
Qed.

Lemma getLongestCommonPrefixFromPaths_longest_shared_witness :
  exists k,
    @getLongestCommonPrefixFromPaths Ref.path
      ["src/ui/a.cy.js"; "src/ui/form/b.cy.js"; "src/api/c.cy.js"]
    = Js.join "/" k
    /\ Forall (fun p => k `prefix_of` getPathParts p)
         ["src/ui/a.cy.js"; "src/ui/form/b.cy.js"; "src/api/c.cy.js"]
    /\ forall k', Forall (fun p => k' `prefix_of` getPathParts p)
                    ["src/ui/a.cy.js"; "src/ui/form/b.cy.js"; "src/api/c.cy.js"] ->
                  k' `prefix_of` k.
Proof.
  apply (@getLongestCommonPrefixFromPaths_longest_shared Ref.path
           "src/ui/a.cy.js" ["src/ui/form/b.cy.js"; "src/api/c.cy.js"]).
  - discriminate.
  - repeat constructor; vm_compute; intros [k Hk]; discriminate Hk.
Defined.

(** ** Strings: append, split and join *)

Lemma append_String x a b : String x a +:+ b = String x (a +:+ b).
Proof. reflexivity. Qed.

Lemma append_nil_l b : "" +:+ b = b.
Proof. reflexivity. Qed.

Lemma append_nil_r s : s +:+ "" = s.
Proof.
  induction s as [|c s IH]; [reflexivity|]. now rewrite append_String, IH.
Qed.

Lemma append_assoc a b c : (a +:+ b) +:+ c = a +:+ b +:+ c.
Proof.
  induction a as [|x a IH]; [reflexivity|]. now rewrite !append_String, IH.
Qed.

Lemma length_append a b :
  String.length (a +:+ b) = String.length a + String.length b.
Proof.
  induction a as [|x a IH]; [reflexivity|].
  rewrite append_String. cbn [String.length]. now rewrite IH.
Qed.

Lemma drop_str_append a b : Js.drop_str (String.length a) (a +:+ b) = b.
Proof.
  induction a as [|x a IH]; [reflexivity|].
  rewrite append_String. cbn [String.length Js.drop_str]. exact IH.
Qed.

Lemma prefix_append a b : String.prefix a (a +:+ b) = true.
Proof.
  induction a as [|x a IH]; [now destruct b|].
  rewrite append_String. cbn [String.prefix].
  destruct (ascii_dec x x); [exact IH | congruence].
Qed.

Lemma endsWith_append a b : Js.endsWith (a +:+ b) b = true.
Proof.
  unfold Js.endsWith. rewrite length_append.
  replace (String.length a + String.length b - String.length b)
    with (String.length a) by lia.
  rewrite drop_str_append, String.eqb_refl.
  rewrite andb_true_r. apply Nat.leb_le. lia.
Qed.

Lemma rev_app_append a b : String.rev_app a b = String.rev a +:+ b.
Proof.
  revert b. induction a as [|x a IH]; intros b; [reflexivity|].
  cbn [String.rev_app]. unfold String.rev. cbn [String.rev_app].
  rewrite (IH (String x b)), (IH (String x "")).
  now rewrite append_assoc.
Qed.

Lemma rev_String x a : String.rev (String x a) = String.rev a +:+ String x "".
Proof. unfold String.rev at 1. cbn [String.rev_app]. apply rev_app_append. Qed.

Lemma join_cons sep x l :
  l ≠ [] -> Js.join sep (x :: l) = x +:+ sep +:+ Js.join sep l.
Proof. destruct l; [contradiction | reflexivity]. Qed.

Lemma join_snoc sep ks l :
  ks ≠ [] -> Js.join sep (ks ++ [l]) = Js.join sep ks +:+ sep +:+ l.
Proof.
  induction ks as [|x ks IH]; intros Hne; [contradiction|].
  destruct ks as [|y ks]; [reflexivity|].
  change ((x :: y :: ks) ++ [l])%list with (x :: ((y :: ks) ++ [l]))%list.
  rewrite join_cons by (intros HH; discriminate HH).
  rewrite IH by done.
  rewrite (join_cons sep x (y :: ks)) by done.
  now rewrite !append_assoc.
Qed.

(** cutting a string at its slashes and joining the pieces with slashes
    gives the string back *)
Lemma join_split_on_go is_sep s : forall cur,
  forallb_str (fun c => negb (is_sep c) || Ascii.eqb c "/") s = true ->
  Js.join "/" (Js.split_on_go is_sep cur s) = String.rev cur +:+ s.
Proof.
  induction s as [|c s IH]; intros cur Hs; cbn [Js.split_on_go].
  - cbn [Js.join]. now rewrite append_nil_r.
  - cbn [forallb_str] in Hs. apply andb_prop in Hs as [Hc Hs].
    destruct (is_sep c) eqn:Esep.
    + cbn in Hc. apply Ascii.eqb_eq in Hc. subst c.
      rewrite join_cons by apply split_on_go_nonempty.
      now rewrite (IH "" Hs).
    + rewrite (IH (String c cur) Hs), rev_String, append_assoc. reflexivity.
Qed.

Lemma join_getPathParts p :
  noBackslash p = true -> Js.join "/" (getPathParts p) = p.
Proof.
  intros Hp. unfold getPathParts, Js.split_on.
  rewrite join_split_on_go; [reflexivity|].
  revert Hp. unfold noBackslash. induction p as [|c p IH]; [reflexivity|].
  cbn [forallb_str]. intros [Hc Hp]%andb_prop. rewrite (IH Hp), andb_true_r.
  unfold isPathSep. destruct (Ascii.eqb c "/"); [apply orb_true_r|].
  cbn. now rewrite Hc.
Qed.

Lemma nonempty_snoc {A} (l : list A) : l ≠ [] -> exists ks x, l = (ks ++ [x])%list.
Proof. induction l using rev_ind; [contradiction | eauto]. Qed.

(** X5: for a single path written with forward slashes, on a platform
    whose separator is [/]: either the path has one segment only and the
    result is empty, or the path is the result, a slash and its last
    segment. *)
Theorem getLongestCommonPrefixFromPaths_single `{NodePath} p :
  path_sep = "/" ->
  noBackslash p = true ->
  exists l,
    last (getPathParts p) = Some l
    /\ ((getPathParts p = [l] /\ getLongestCommonPrefixFromPaths [p] = "")
        \/ p = getLongestCommonPrefixFromPaths [p] +:+ "/" +:+ l).
Proof.
  intros Hsep Hp. pose proof (join_getPathParts p Hp) as Hjoin.
  unfold getLongestCommonPrefixFromPaths. rewrite Hsep.
  destruct (nonempty_snoc _ (getPathParts_nonempty p)) as (l0 & x & E).
  rewrite E in Hjoin. rewrite E.
  exists x. rewrite last_snoc. split; [reflexivity|].
  rewrite length_app. cbn [length].
  replace (length l0 + 1 - 1) with (length l0) by lia.
  rewrite take_app_length.
  destruct l0 as [|y l0].
  - left. split; [reflexivity|]. now destruct (Js.truthy p).
  - right. rewrite join_snoc in Hjoin by done.
    destruct (Js.truthy p) eqn:Etr; cbn [negb]; [now rewrite Hjoin|].
    exfalso. unfold Js.truthy in Etr.
    apply negb_false_iff, String.eqb_eq in Etr. rewrite <- Hjoin in Etr.
    destruct (Js.join "/" (y :: l0)); discriminate Etr.
Qed.

Lemma getLongestCommonPrefixFromPaths_single_witness :
  exists l,
    last (getPathParts "cypress/e2e/login.cy.ts") = Some l
    /\ ((getPathParts "cypress/e2e/login.cy.ts" = [l]
         /\ @getLongestCommonPrefixFromPaths Ref.path ["cypress/e2e/login.cy.ts"] = "")
        \/ "cypress/e2e/login.cy.ts"
           = @getLongestCommonPrefixFromPaths Ref.path ["cypress/e2e/login.cy.ts"]
               +:+ "/" +:+ l).
Proof.
  apply (@getLongestCommonPrefixFromPaths_single Ref.path "cypress/e2e/login.cy.ts").
  - reflexivity.
  - reflexivity.
Defined.

(** ** [transformSpec]: the other fields *)

Lemma firstCompoundSuffix_Some path ext suffixes compound :
  firstCompoundSuffix path ext suffixes = Some compound ->
  exists suffix, suffix ∈ suffixes /\ compound = suffix +:+ ext
                 /\ Js.endsWith path compound = true.
Proof.
  induction suffixes as [|s r IH]; cbn; [discriminate|].
  destruct (Js.endsWith path (s +:+ ext)) eqn:E.
  - intros [= <-]. exists s. split; [left | split; [reflexivity | exact E]].
  - intros Hr. destruct (IH Hr) as (suffix & Hin & Hc & He).
    exists suffix. split; [now right | split; assumption].
Qed.

Lemma endsWith_refl s : Js.endsWith s s = true.
Proof. exact (endsWith_append "" s). Qed.

(** X6: [specFileExtension] always ends with [fileExtension].  When the
    two differ, [specFileExtension] is one of the five suffixes followed
    by [fileExtension], and the path ends with it. *)
Theorem transformSpec_specFileExtension_shape `{NodePath} projectRoot path
    testingType commonRoot platform sep :
  let d := transformSpec projectRoot path testingType commonRoot platform sep in
  Js.endsWith (specFileExtension d) (fileExtension d) = true
  /\ (specFileExtension d = fileExtension d
      \/ exists suffix,
           suffix ∈ specSuffixes
           /\ specFileExtension d = suffix +:+ fileExtension d
           /\ Js.endsWith (absolute d) (specFileExtension d) = true).
Proof.
  intros d. unfold d, transformSpec.
  cbn [specFileExtension fileExtension absolute].
  rewrite find_compound.
  destruct (firstCompoundSuffix _ _ specSuffixes) as [c|] eqn:E;
    cbn [Js.or_else]; [|split; [apply endsWith_refl | now left]].
  rewrite (firstCompoundSuffix_truthy _ _ _ _ specSuffixes_nonempty E).
  destruct (firstCompoundSuffix_Some _ _ _ _ E) as (suffix & Hin & -> & He).
  split; [apply endsWith_append|]. right. exists suffix. auto.
Qed.

Lemma includes_char_cons c a s :
  Js.includes (String a s) (String c "") = false ->
  a ≠ c /\ Js.includes s (String c "") = false.
Proof.
  cbn [Js.includes String.prefix]. intros [Hp Hs]%orb_false_elim.
  split; [|exact Hs]. intros ->.
  destruct (ascii_dec c c); [|congruence]. now destruct s.
Qed.

Lemma replace_first_eq pat rep s :
  Js.replace_first pat rep s
  = if String.prefix pat s then rep +:+ Js.drop_str (String.length pat) s
    else match s with
         | EmptyString => EmptyString
         | String c s' => String c (Js.replace_first pat rep s')
         end.
Proof. destruct s; reflexivity. Qed.

Lemma replace_first_prefix p x : Js.replace_first p "" (p +:+ x) = x.
Proof.
  rewrite replace_first_eq, prefix_append, drop_str_append. reflexivity.
Qed.

(** removing the first occurrence of [pat] from [stem ++ pat] gives
    [stem] back when the first character of [pat] is not in [stem] *)
Lemma replace_first_fresh c pat stem :
  Js.includes stem (String c "") = false ->
  Js.replace_first (String c pat) "" (stem +:+ String c pat) = stem.
Proof.
  induction stem as [|a stem IH]; intros Hfresh.
  - rewrite append_nil_l.
    rewrite <- (append_nil_r (String c pat)) at 2.
    apply replace_first_prefix.
  - apply includes_char_cons in Hfresh as [Hne Hfresh].
    rewrite append_String, replace_first_eq. cbn [String.prefix].
    destruct (ascii_dec c a) as [-> | _]; [congruence|].
    now rewrite (IH Hfresh).
Qed.

(** X7: when the base name is a stem followed by [specFileExtension] and
    the stem does not contain the character [specFileExtension] starts
    with, [fileName] is that stem, and [fileName + specFileExtension] is
    the base name. *)
Theorem transformSpec_fileName_round_trip `{NodePath} projectRoot path
    testingType commonRoot platform sep stem c rest :
  let d := transformSpec projectRoot path testingType commonRoot platform sep in
  baseName d = stem +:+ specFileExtension d ->
  specFileExtension d = String c rest ->
  Js.includes stem (String c "") = false ->
  fileName d = stem /\ fileName d +:+ specFileExtension d = baseName d.
Proof.
  intros d Hbase Hext Hfresh.
  assert (Hf : fileName d = stem).
  { change (fileName d)
      with (Js.replace_first (specFileExtension d) "" (baseName d)).
    rewrite Hbase, Hext. now apply replace_first_fresh. }
  split; [exact Hf | now rewrite Hf, Hbase].
Qed.

Lemma transformSpec_fileName_round_trip_witness :
  let d := @transformSpec Ref.path "/proj" "/proj/cypress/e2e/login.cy.ts" e2e
             "/proj/cypress" "linux" "/" in
  fileName d = "login" /\ fileName d +:+ specFileExtension d = baseName d.
Proof.
  apply (@transformSpec_fileName_round_trip Ref.path "/proj"
           "/proj/cypress/e2e/login.cy.ts" e2e "/proj/cypress" "linux" "/"
           "login" "."%char "cy.ts").
  - vm_compute. reflexivity.
  - vm_compute. reflexivity.
  - vm_compute. reflexivity.
Defined.

Lemma strip_leading_slash_slash rest :
  strip_leading_slash ("/" +:+ rest) = rest.
Proof.
  unfold strip_leading_slash, Js.startsWith.
  rewrite (prefix_append "/" rest). reflexivity.
Qed.

(** X8: off win32, for a path that is the common root, a slash and a
    remainder, [relativeToCommonRoot] is the remainder. *)
Theorem transformSpec_relativeToCommonRoot `{NodePath} projectRoot testingType
    commonRoot platform sep rest :
  platform ≠ "win32" ->
  relativeToCommonRoot
    (transformSpec projectRoot (commonRoot +:+ "/" +:+ rest) testingType
       commonRoot platform sep)
  = rest.
Proof.
  intros Hp. unfold transformSpec. cbn [relativeToCommonRoot].
  apply String.eqb_neq in Hp. rewrite Hp.
  rewrite replace_first_prefix. apply strip_leading_slash_slash.
Qed.

Lemma transformSpec_relativeToCommonRoot_witness :
  relativeToCommonRoot
    (@transformSpec Ref.path "/proj" ("/proj/cypress" +:+ "/" +:+ "e2e/login.cy.ts")
       e2e "/proj/cypress" "linux" "/")
  = "e2e/login.cy.ts".
Proof.
  apply (@transformSpec_relativeToCommonRoot Ref.path). discriminate.
Defined.

(** ** [matchedSpecs] and the lookup by absolute path *)

Lemma transformSpec_absolute_off_win32 `{NodePath} projectRoot path testingType
    commonRoot platform sep :
  platform ≠ "win32" ->
  absolute (transformSpec projectRoot path testingType commonRoot platform sep)
  = path.
Proof.
  intros Hp. unfold transformSpec. cbn [absolute].
  apply String.eqb_neq in Hp. now rewrite Hp.
Qed.

Lemma find_absolute_fmap (f : string -> FoundSpec) paths a :
  (forall p, absolute (f p) = p) ->
  find (fun x => bool_decide (absolute x = a)) (f <$> paths)
  = if decide (a ∈ paths) then Some (f a) else None.
Proof.
  intros Hf. induction paths as [|p paths IH]; cbn [fmap list_fmap find].
  - destruct (decide (a ∈ [])) as [Hin | _]; [|reflexivity].
    now apply elem_of_nil in Hin.
  - rewrite Hf. destruct (decide (p = a)) as [-> | Hne].
    + rewrite bool_decide_eq_true_2 by reflexivity.
      destruct (decide (a ∈ a :: paths)) as [_ | Hn]; [reflexivity|].
      exfalso. apply Hn. left.
    + rewrite bool_decide_eq_false_2 by exact Hne.
      change (List.find (fun x => bool_decide (absolute x = a)) (f <$> paths))
        with (find (fun x => bool_decide (absolute x = a)) (f <$> paths)).
      rewrite IH.
      destruct (decide (a ∈ paths)) as [Hin | Hn];
        destruct (decide (a ∈ p :: paths)) as [Hin' | Hn']; try reflexivity.
      * exfalso. apply Hn'. now right.
      * exfalso. apply elem_of_cons in Hin' as [-> | Hin']; [congruence | contradiction].
Qed.

(** X9: off win32, once the specs found for a list of paths are stored
    with [setSpecs], [getCurrentSpecByAbsolute] finds a spec exactly for
    the paths of the list, and the spec found is the one [transformSpec]
    builds from that path and the common root of the list. *)
Theorem getCurrentSpecByAbsolute_matchedSpecs `{NodePath} `{Host}
    this projectRoot testingType paths a :
  os_platform ≠ "win32" ->
  getCurrentSpecByAbsolute
    (setSpecs this (matchedSpecs projectRoot testingType paths)) a
  = if decide (a ∈ paths)
    then Some (transformSpec projectRoot a testingType (commonRootOf paths)
                 os_platform path_sep)
    else None.
Proof.
  intros Hp. unfold getCurrentSpecByAbsolute, specs, setSpecs, matchedSpecs.
  cbn [_specs]. fold (commonRootOf paths).
  apply (find_absolute_fmap
           (fun p => transformSpec projectRoot p testingType (commonRootOf paths)
                       os_platform path_sep)).
  intros p. now apply transformSpec_absolute_off_win32.
Qed.

Lemma getCurrentSpecByAbsolute_matchedSpecs_witness :
  @getCurrentSpecByAbsolute
    (setSpecs (Ref.source (Some "/proj") (Ref.config cfg_unset cfg_unset) None [])
       (@matchedSpecs Ref.path refHost "/proj" component
          ["/proj/src/Button.cy.tsx"; "/proj/src/form/Input.cy.tsx"]))
    "/proj/src/form/Input.cy.tsx"
  = Some (@transformSpec Ref.path "/proj" "/proj/src/form/Input.cy.tsx" component
            "/proj/src/" "linux" "/").
Proof.
  apply (@getCurrentSpecByAbsolute_matchedSpecs Ref.path refHost
           (Ref.source (Some "/proj") (Ref.config cfg_unset cfg_unset) None [])
           "/proj" component
           ["/proj/src/Button.cy.tsx"; "/proj/src/form/Input.cy.tsx"]
           "/proj/src/form/Input.cy.tsx").
  discriminate.
Defined.

(** ** [defaultSpecFileName], [matchesSpecPattern] and
       [getIsDefaultSpecPattern] on every state *)

(** X10: [defaultSpecFileName] never throws and its promise never
    rejects: whatever the configuration loader, [parse-glob] or [RandExp]
    do, a value comes back. *)
Theorem defaultSpecFileName_never_throws `{NodePath} `{Libs} this :
  exists r, defaultSpecFileName this = Ok r.
Proof.
  unfold defaultSpecFileName, try_catch.
  match goal with |- context [match ?b with Ok _ => _ | Throw _ => _ end] =>
    destruct b end; eauto.
Qed.

Lemma defaultFilenameOf_truthy this : Js.truthy (defaultFilenameOf this) = true.
Proof. reflexivity. Qed.

(** the body of [defaultSpecFileName], by cases *)
Lemma defaultSpecFileName_cases `{NodePath} `{Libs} this :
  (notReady this /\ defaultSpecFileName this = Ok None)
  \/ (¬ notReady this
      /\ exists s, defaultSpecFileName this = Ok (Some s) /\ Js.truthy s = true).
Proof.
  unfold notReady, defaultSpecFileName. fold (defaultFilenameOf this).
  destruct (currentProject (ctx this)) as [project|]; cbn [falsy_str];
    [|left; split; [now left | reflexivity]].
  destruct (currentTestingType (ctx this)) as [testingType|];
    [|left; split; [now right | reflexivity]].
  destruct (Js.truthy project) eqn:Etr; cbn [negb];
    [|left; split; [now left | reflexivity]].
  right. split; [intros [? | ?]; discriminate|].
  assert (Hd : exists s, Ok (Some (defaultFilenameOf this)) = Ok (Some s)
                         /\ Js.truthy s = true)
    by (eexists; split; [reflexivity | apply defaultFilenameOf_truthy]).
  destruct (specPatterns this) as [[specPattern excl]|e]; cbn; [|exact Hd].
  destruct (head (default [] specPattern)) as [pattern|]; cbn; [|exact Hd].
  destruct (Js.truthy pattern); cbn; [|exact Hd].
  destruct (decide _); cbn; [exact Hd|].
  destruct (Js.truthy (getLongestCommonPrefixFromPaths _)) eqn:El; cbn; [eauto|].
  destruct (getLongestCommonPrefixFromGlob _ _ _) as [[g|]|e]; cbn;
    try exact Hd.
  destruct (Js.truthy g) eqn:Eg; cbn; [eauto | exact Hd].
Qed.

(** X11: [defaultSpecFileName] returns [null] exactly when no project is
    open or no testing type is chosen. *)
Theorem defaultSpecFileName_null_iff `{NodePath} `{Libs} this :
  defaultSpecFileName this = Ok None <-> notReady this.
Proof.
  destruct (defaultSpecFileName_cases this) as [[Hn E] | [Hr (s & E & _)]].
  - split; [intros _; exact Hn | intros _; exact E].
  - rewrite E. split; [discriminate | contradiction].
Qed.

(** X12: [defaultSpecFileName] never returns the empty string. *)
Theorem defaultSpecFileName_never_empty `{NodePath} `{Libs} this :
  defaultSpecFileName this ≠ Ok (Some "").
Proof.
  destruct (defaultSpecFileName_cases this) as [[_ E] | [_ (s & E & Hs)]];
    rewrite E; [discriminate|].
  intros [= ->]. discriminate Hs.
Qed.

(** X13: when the configuration cannot be loaded, on an object that is
    ready, [matchesSpecPattern] rejects with the error of the loader while
    [defaultSpecFileName] swallows it and returns its default file name. *)
Theorem config_failure `{NodePath} `{Libs} this e specFile :
  ¬ notReady this ->
  getConfig this = Throw e ->
  matchesSpecPattern this specFile = Throw e
  /\ defaultSpecFileName this = Ok (Some (defaultFilenameOf this)).
Proof.
  unfold notReady. intros Hr Hc.
  unfold matchesSpecPattern, defaultSpecFileName, specPatterns.
  fold (defaultFilenameOf this). rewrite Hc.
  destruct (currentProject (ctx this)) as [project|]; cbn [falsy_str] in *;
    [|exfalso; apply Hr; now left].
  destruct (currentTestingType (ctx this)) as [testingType|];
    [|exfalso; apply Hr; now right].
  destruct (Js.truthy project) eqn:Etr; cbn [negb] in *;
    [|exfalso; apply Hr; now left].
  rewrite bool_decide_eq_true_2 by eauto. split; reflexivity.
Qed.

Lemma config_failure_witness :
  let this := Ref.source (Some "/proj") (Throw "ENOENT") None [] in
  @matchesSpecPattern Ref.libs this "cypress/e2e/a.cy.js" = Throw "ENOENT"
  /\ @defaultSpecFileName Ref.path Ref.libs this
     = Ok (Some "cypress/e2e/filename.cy.js/").
Proof.
  intros this.
  apply (@config_failure Ref.path Ref.libs this "ENOENT" "cypress/e2e/a.cy.js").
  - intros [Hn | Hn]; discriminate Hn.
  - reflexivity.
Defined.

(** X14: on an object that is not ready, [matchesSpecPattern] answers
    [false] and [defaultSpecFileName] answers [null], both without
    loading the configuration, while [getIsDefaultSpecPattern] throws an
    assertion error. *)
Theorem not_ready `{NodePath} `{Libs} this specFile :
  notReady this ->
  matchesSpecPattern this specFile = Ok false
  /\ defaultSpecFileName this = Ok None
  /\ getIsDefaultSpecPattern this = Throw assertionError.
Proof.
  intros Hn. split; [|split].
  - unfold matchesSpecPattern. destruct Hn as [-> | ->]; [reflexivity|].
    rewrite bool_decide_eq_false_2 by (intros [? ?]; discriminate).
    now rewrite orb_true_r.
  - destruct (defaultSpecFileName_cases this) as [[_ E] | [Hr _]];
      [exact E | contradiction].
  - unfold getIsDefaultSpecPattern. destruct Hn as [-> | ->]; [reflexivity|].
    now destruct (falsy_str _).
Qed.

Lemma not_ready_witness :
  let this := Ref.source None (Throw "ENOENT") None [] in
  @matchesSpecPattern Ref.libs this "cypress/e2e/a.cy.js" = Ok false
  /\ @defaultSpecFileName Ref.path Ref.libs this = Ok None
  /\ @getIsDefaultSpecPattern Ref.libs this = Throw assertionError.
Proof.
  intros this.
  apply (@not_ready Ref.path Ref.libs this "cypress/e2e/a.cy.js").
  left. reflexivity.
Defined.

(** X15: when [getIsDefaultSpecPattern] answers [true],
    [defaultSpecFileName] returns its default file name: the known specs
    and the glob are not looked at. *)
Theorem getIsDefaultSpecPattern_defaultSpecFileName `{NodePath} `{Libs} this :
  getIsDefaultSpecPattern this = Ok true ->
  defaultSpecFileName this = Ok (Some (defaultFilenameOf this)).
Proof.
  unfold getIsDefaultSpecPattern, defaultSpecFileName.
  fold (defaultFilenameOf this).
  destruct (currentProject (ctx this)) as [project|]; cbn [falsy_str];
    [|discriminate].
  destruct (Js.truthy project); cbn [negb]; [|discriminate].
  destruct (currentTestingType (ctx this)) as [testingType|]; [|discriminate].
  destruct (specPatterns this) as [[specPattern excl]|e]; cbn; [|discriminate].
  intros Hd.
  assert (Hs : specPattern = Some [defaultSpecPattern testingType]).
  { destruct testingType; injection Hd as Hd;
      now apply bool_decide_eq_true_1 in Hd. }
  subst specPattern. cbn.
  destruct (Js.truthy (defaultSpecPattern testingType)); cbn; [|reflexivity].
  destruct (decide _) as [_ | Hne]; [reflexivity | congruence].
Qed.

Lemma getIsDefaultSpecPattern_defaultSpecFileName_witness :
  @defaultSpecFileName Ref.path Ref.libs
    (Ref.source (Some "/proj")
       (Ref.config (cfg_one "cypress/e2e/**/*.cy.{js,jsx,ts,tsx}") cfg_unset)
       None [])
  = Ok (Some "cypress/e2e/filename.cy.js/").
Proof.
  apply (@getIsDefaultSpecPattern_defaultSpecFileName Ref.path Ref.libs
           (Ref.source (Some "/proj")
              (Ref.config (cfg_one "cypress/e2e/**/*.cy.{js,jsx,ts,tsx}") cfg_unset)
              None [])).
  reflexivity.
Defined.

Lemma defaultSpecFileName_glob_step `{NodePath} `{Libs}
    this project testingType config pattern :
  currentProject (ctx this) = Some project ->
  Js.truthy project = true ->
  currentTestingType (ctx this) = Some testingType ->
  getConfig this = Ok config ->
  head (includePatterns config) = Some pattern ->
  Js.truthy pattern = true ->
  pattern ≠ defaultSpecPattern testingType ->
  getLongestCommonPrefixFromPaths (relative <$> _specs this) = "" ->
  defaultSpecFileName this
  = Ok (Some match getLongestCommonPrefixFromGlob pattern testingType
                     (Some (fileExtensionToUse (ctx this))) with
             | Ok (Some g) => if Js.truthy g then g else defaultFilenameOf this
             | _ => defaultFilenameOf this
             end).
Proof.
  intros Hp Ht Htt Hc Hpat Hpt Hne Hlcp.
  unfold defaultSpecFileName. fold (defaultFilenameOf this).
  rewrite Hp, Htt, Ht. cbn [negb].
  rewrite (specPatterns_ok _ _ Hc). cbn [mbind Res_bind].
  fold (includePatterns config). rewrite Hpat, Hpt. cbn [negb].
  destruct (decide _) as [Heq|_]; [contradiction|].
  rewrite Hlcp. cbn [Js.truthy String.eqb negb].
  destruct (getLongestCommonPrefixFromGlob _ _ _) as [[g|]|e]; cbn;
    [|reflexivity..].
  now destruct (Js.truthy g).
Qed.

(** X16: on a ready object whose first spec pattern is not the built-in
    default, and with no common prefix to take from the known specs, the
    result is the example generated from the glob when there is one and
    it is not empty, and the default file name otherwise -- also when
    generating the example throws. *)
Theorem defaultSpecFileName_from_glob `{NodePath} `{Libs}
    this project testingType config pattern :
  currentProject (ctx this) = Some project ->
  Js.truthy project = true ->
  currentTestingType (ctx this) = Some testingType ->
  getConfig this = Ok config ->
  head (includePatterns config) = Some pattern ->
  Js.truthy pattern = true ->
  pattern ≠ defaultSpecPattern testingType ->
  getLongestCommonPrefixFromPaths (relative <$> _specs this) = "" ->
  defaultSpecFileName this
  = Ok (Some match getLongestCommonPrefixFromGlob pattern testingType
                     (Some (fileExtensionToUse (ctx this))) with
             | Ok (Some g) => if Js.truthy g then g else defaultFilenameOf this
             | _ => defaultFilenameOf this
             end).
Proof. apply defaultSpecFileName_glob_step. Qed.

Lemma defaultSpecFileName_from_glob_witness :
  @defaultSpecFileName Ref.path Ref.libs
    (Ref.source (Some "/proj")
       (Ref.config (cfg_many ["src/**/*.spec.ts"; "lib/*.ts"]) cfg_unset) None [])
  = Ok (Some "src/filename.spec.ts").
Proof.
  apply (@defaultSpecFileName_from_glob Ref.path Ref.libs
           (Ref.source (Some "/proj")
              (Ref.config (cfg_many ["src/**/*.spec.ts"; "lib/*.ts"]) cfg_unset)
              None [])
           "/proj" e2e
           {| cfg_specPattern := cfg_many ["src/**/*.spec.ts"; "lib/*.ts"];
              cfg_excludeSpecPattern := cfg_unset |} "src/**/*.spec.ts").
  - reflexivity.
  - reflexivity.
  - reflexivity.
  - reflexivity.
  - reflexivity.
  - reflexivity.
  - vm_compute. discriminate.
  - reflexivity.
Defined.

(** ** [matchesSpecPattern]: the order of the patterns *)

Lemma returnOnMatch_existsb `{Libs} specFile patterns ret :
  returnOnMatch specFile patterns ret
  = if existsb (minimatch specFile) patterns then Some ret else None.
Proof.
  induction patterns as [|p l IH]; cbn; [reflexivity|].
  destruct (minimatch specFile p); [reflexivity | exact IH].
Qed.

Lemma matchesSpecPattern_closed `{Libs} this config specFile :
  ¬ notReady this ->
  getConfig this = Ok config ->
  matchesSpecPattern this specFile
  = Ok (negb (existsb (minimatch specFile) (excludePatterns config))
        && existsb (minimatch specFile) (includePatterns config)).
Proof.
  unfold notReady. intros Hr Hc. unfold matchesSpecPattern.
  destruct (falsy_str _) eqn:Ef; [exfalso; apply Hr; now left|].
  destruct (currentTestingType (ctx this)) as [t|]; [|exfalso; apply Hr; now right].
  rewrite bool_decide_eq_true_2 by eauto. cbn [negb orb].
  rewrite (specPatterns_ok _ _ Hc). cbn [mbind Res_bind].
  fold (includePatterns config) (excludePatterns config).
  rewrite !returnOnMatch_existsb.
  destruct (existsb _ (excludePatterns config)); [reflexivity|].
  now destruct (existsb _ (includePatterns config)).
Qed.

Lemma existsb_Permutation {A} (f : A -> bool) l1 l2 :
  l1 ≡ₚ l2 -> existsb f l1 = existsb f l2.
Proof.
  induction 1 as [|x l l' _ IH|x y l|l l' l'' _ IH1 _ IH2]; cbn.
  - reflexivity.
  - now rewrite IH.
  - destruct (f x), (f y); reflexivity.
  - now rewrite IH1.
Qed.

(** X17: the answer of [matchesSpecPattern] does not depend on the order
    in which the include patterns, or the exclude patterns, are
    configured: two ready objects whose pattern lists are permutations of
    each other give the same answer on every path. *)
Theorem matchesSpecPattern_order `{Libs} this1 this2 config1 config2 specFile :
  ¬ notReady this1 ->
  ¬ notReady this2 ->
  getConfig this1 = Ok config1 ->
  getConfig this2 = Ok config2 ->
  includePatterns config1 ≡ₚ includePatterns config2 ->
  excludePatterns config1 ≡ₚ excludePatterns config2 ->
  matchesSpecPattern this1 specFile = matchesSpecPattern this2 specFile.
Proof.
  intros Hr1 Hr2 Hc1 Hc2 Hi He.
  rewrite (matchesSpecPattern_closed this1 config1 specFile Hr1 Hc1).
  rewrite (matchesSpecPattern_closed this2 config2 specFile Hr2 Hc2).
  now rewrite (existsb_Permutation _ _ _ Hi), (existsb_Permutation _ _ _ He).
Qed.

Lemma matchesSpecPattern_order_witness :
  @matchesSpecPattern Ref.libs
    (Ref.source (Some "/proj")
       (Ref.config (cfg_many ["**/*.cy.js"; "**/*.cy.ts"]) (cfg_one "**/*.skip.cy.js"))
       None [])
    "src/a.cy.ts"
  = @matchesSpecPattern Ref.libs
      (Ref.source (Some "/other")
         (Ref.config (cfg_many ["**/*.cy.ts"; "**/*.cy.js"])
            (cfg_many ["**/*.skip.cy.js"]))
         None [])
      "src/a.cy.ts".
Proof.
  apply (@matchesSpecPattern_order Ref.libs _ _
           {| cfg_specPattern := cfg_many ["**/*.cy.js"; "**/*.cy.ts"];
              cfg_excludeSpecPattern := cfg_one "**/*.skip.cy.js" |}
           {| cfg_specPattern := cfg_many ["**/*.cy.ts"; "**/*.cy.js"];
              cfg_excludeSpecPattern := cfg_many ["**/*.skip.cy.js"] |}).
  - intros [Hn | Hn]; discriminate Hn.
  - intros [Hn | Hn]; discriminate Hn.
  - reflexivity.
  - reflexivity.
  - apply perm_swap.
  - reflexivity.
Defined.

(** ** The spec watcher over any run of calls *)

(** X18: with a project open, [startSpecWatcher] returns normally and
    holds a new watcher on the project root that skips initial events,
    ignores [**/node_modules/**] and all the excluded and additionally
    ignored patterns, and has one listener, on [all], debounced by 250
    ms; the watcher held before, if any, was closed before the new one
    was created. *)
Theorem startSpecWatcher_with_project `{Libs} this project projectRoot
    testingType specPattern excludeSpecPattern additionalIgnore :
  currentProject (ctx this) = Some project ->
  Js.truthy project = true ->
  let r := startSpecWatcher this projectRoot testingType specPattern
             excludeSpecPattern additionalIgnore in
  r.2 = Ok ()
  /\ exists w,
       _specWatcher r.1 = Some w
       /\ w_cwd w = projectRoot /\ w_ignoreInitial w = true
       /\ "**/node_modules/**" ∈ w_ignored w
       /\ Forall (fun p => p ∈ w_ignored w)
                 (excludeSpecPattern ++ additionalIgnore)%list
       /\ (l_event <$> w_listeners w) = ["all"]
       /\ (l_wait <$> w_listeners w) = [250]
       /\ exists w0, effects r.1 = ev_watch w0 :: closeEffects this.
Proof.
  intros Hp Ht r. unfold r, startSpecWatcher.
  rewrite stopSpecWatcher_eq. cbn [ctx]. rewrite Hp. cbn [falsy_str].
  rewrite Ht. cbn [negb fst snd _specWatcher effects].
  split; [reflexivity|]. eexists. split; [reflexivity|].
  cbn [w_cwd w_ignoreInitial w_ignored w_listeners].
  repeat split; [left | | eexists; reflexivity].
  apply Forall_forall. intros p Hin. now right.
Qed.

Lemma startSpecWatcher_with_project_witness :
  (@startSpecWatcher Ref.libs
     (Ref.source (Some "/proj") (Ref.config cfg_unset cfg_unset)
        (Some Ref.watcher) [])
     "/proj" e2e ["**/*.cy.js"] ["**/*.skip.cy.js"] ["**/dist/**"]).2
  = Ok ().
Proof.
  apply (@startSpecWatcher_with_project Ref.libs
           (Ref.source (Some "/proj") (Ref.config cfg_unset cfg_unset)
              (Some Ref.watcher) [])
           "/proj" "/proj" e2e ["**/*.cy.js"] ["**/*.skip.cy.js"] ["**/dist/**"]).
  - reflexivity.
  - reflexivity.
Defined.

Lemma countOf_cons f e es :
  countOf f (e :: es) = (if f e then 1 else 0) + countOf f es.
Proof.
  unfold countOf. rewrite filter_cons.
  destruct (decide (f e = true)) as [-> | Hn]; [reflexivity|].
  now destruct (f e).
Qed.

Lemma countOf_closeEffects f this :
  countOf f (closeEffects this)
  = match _specWatcher this with
    | Some w => (if f (ev_close w) then 1 else 0) + countOf f (effects this)
    | None => countOf f (effects this)
    end.
Proof.
  unfold closeEffects. destruct (_specWatcher this); [apply countOf_cons | reflexivity].
Qed.

Lemma stopSpecWatcher_balanced `{Libs} this :
  balanced this ->
  balanced (stopSpecWatcher this).1
  /\ _specWatcher (stopSpecWatcher this).1 = None
  /\ countOf isRejection (effects (stopSpecWatcher this).1)
     = countOf isRejection (effects this).
Proof.
  unfold balanced. rewrite stopSpecWatcher_eq. cbn [fst _specWatcher effects].
  rewrite !countOf_closeEffects. intros Hb.
  destruct (_specWatcher this); cbn [isWatch isClose isRejection]; repeat split; lia.
Qed.

Lemma call_balanced `{Libs} this c :
  balanced this ->
  balanced (call this c).1
  /\ countOf isRejection (effects (call this c).1)
     = countOf isRejection (effects this).
Proof.
  intros Hb. destruct (stopSpecWatcher_balanced this Hb) as (Hb' & Hw & Hr).
  destruct c as [projectRoot testingType specPattern excl ign| |];
    cbn [call]; [|split; assumption..].
  unfold startSpecWatcher.
  destruct (stopSpecWatcher this) as [this' [[]|e]] eqn:Es; cbn [fst] in *;
    [|split; assumption].
  destruct (falsy_str _); cbn [fst]; [split; assumption|].
  unfold balanced in *. cbn [effects _specWatcher].
  rewrite !countOf_cons. cbn [isWatch isClose isRejection].
  rewrite Hw in Hb'. split; lia.
Qed.

(** X19: over any run of [startSpecWatcher], [stopSpecWatcher] and
    [destroy] calls, whether or not some of them throw, no watcher is
    leaked and no rejection is left unhandled: the watchers created are
    the watchers closed plus the one held, if one is held, and the
    number of unhandled rejections does not change. *)
Theorem watcher_calls_balanced `{Libs} cs : forall this,
  balanced this ->
  balanced (calls this cs)
  /\ countOf isRejection (effects (calls this cs))
     = countOf isRejection (effects this).
Proof.
  induction cs as [|c cs IH]; intros this Hb; [split; [exact Hb | reflexivity]|].
  change (calls this (c :: cs)) with (calls (call this c).1 cs).
  destruct (call_balanced this c Hb) as [Hb' Hr'].
  destruct (IH _ Hb') as [Hb'' Hr''].
  split; [exact Hb'' | now rewrite Hr'', Hr'].
Qed.

Lemma watcher_calls_balanced_witness :
  let this := Ref.source (Some "/proj") (Ref.config cfg_unset cfg_unset) None [] in
  let cs := [call_start "/proj" e2e ["**/*.cy.js"] [] [];
             call_start "/proj" component ["**/*.cy.tsx"] [] [];
             call_stop; call_destroy;
             call_start "/proj" e2e ["**/*.cy.js"] [] []] in
  balanced (@calls Ref.libs this cs)
  /\ countOf isRejection (effects (@calls Ref.libs this cs))
     = countOf isRejection (effects this).
Proof.
  intros this cs. apply (@watcher_calls_balanced Ref.libs cs this).
  reflexivity.
Defined.

(** ** [getCodeGenCandidates] *)

(** X20: with a project open, [getCodeGenCandidates] asks the file API
    for one glob, under the project root and with [expandDirectories]:
    the glob it was given when that starts with [**/], and [**/] followed
    by it otherwise.  It returns one candidate per file found, in the
    order of the files, and rejects as the file API does.  Asking again
    with the glob it passed on changes nothing: the prefix is added once,
    and only when it is missing. *)
Theorem getCodeGenCandidates_prefix `{Host} this project glob :
  currentProject (ctx this) = Some project ->
  Js.truthy project = true ->
  let asked := if Js.startsWith glob "**/" then glob else "**/" +:+ glob in
  Js.startsWith asked "**/" = true
  /\ getCodeGenCandidates this glob
     = match getFilesByGlob project (glob_one asked)
               {| go_absolute := None; go_ignore := None;
                  go_expandDirectories := Some true |} with
       | Ok files => Ok ((fun file => {| fp_absolute := file |}) <$> files)
       | Throw e => Throw e
       end
  /\ getCodeGenCandidates this asked = getCodeGenCandidates this glob.
Proof.
  intros Hp Ht asked.
  assert (Ha : Js.startsWith asked "**/" = true).
  { unfold asked. destruct (Js.startsWith glob "**/") eqn:Eg; [exact Eg|].
    unfold Js.startsWith. apply (prefix_append "**/" glob). }
  assert (Hcall : forall g,
             getCodeGenCandidates this g
             = match getFilesByGlob project
                       (glob_one (if Js.startsWith g "**/" then g else "**/" +:+ g))
                       {| go_absolute := None; go_ignore := None;
                          go_expandDirectories := Some true |} with
               | Ok files => Ok ((fun file => {| fp_absolute := file |}) <$> files)
               | Throw e => Throw e
               end).
  { intros g. unfold getCodeGenCandidates. rewrite Hp, Ht. cbn [negb].
    destruct (Js.startsWith g "**/"); reflexivity. }
  split; [exact Ha|]. split; [apply Hcall|].
  rewrite !Hcall. fold asked. now rewrite Ha.
Qed.

Lemma getCodeGenCandidates_prefix_witness :
  let this := Ref.source (Some "/proj") (Ref.config cfg_unset cfg_unset) None [] in
  @getCodeGenCandidates echoHost this "src/*.tsx"
  = Ok [{| fp_absolute := "/proj/+/**/src/*.tsx" |}]
  /\ @getCodeGenCandidates echoHost this "**/src/*.tsx"
     = @getCodeGenCandidates echoHost this "src/*.tsx".
Proof.
  intros this.
  destruct (@getCodeGenCandidates_prefix echoHost this "/proj" "src/*.tsx"
              eq_refl eq_refl) as (_ & Hcall & Hagain).
  split; [exact Hcall | exact Hagain].
Defined.

(** X21: on a ready object with no common prefix to take from the known
    specs, a first spec pattern that [parse-glob] does not find to be a
    glob -- the path of one file -- is returned as it is. *)
Theorem defaultSpecFileName_plain_pattern `{NodePath} `{Libs}
    this project testingType config pattern parsed :
  currentProject (ctx this) = Some project ->
  Js.truthy project = true ->
  currentTestingType (ctx this) = Some testingType ->
  getConfig this = Ok config ->
  head (includePatterns config) = Some pattern ->
  Js.truthy pattern = true ->
  pattern ≠ defaultSpecPattern testingType ->
  getLongestCommonPrefixFromPaths (relative <$> _specs this) = "" ->
  parseGlob pattern = Ok parsed ->
  is_glob parsed = false ->
  defaultSpecFileName this = Ok (Some pattern).
Proof.
  intros Hp Ht Htt Hc Hpat Hpt Hne Hlcp Hparse Hglob.
  rewrite (defaultSpecFileName_glob_step this project testingType config pattern)
    by assumption.
  unfold getLongestCommonPrefixFromGlob. rewrite Hparse.
  cbn [mbind Res_bind]. rewrite Hglob. cbn [negb]. now rewrite Hpt.
Qed.

Lemma defaultSpecFileName_plain_pattern_witness :
  @defaultSpecFileName Ref.path Ref.libs
    (Ref.source (Some "/proj")
       (Ref.config (cfg_one "cypress/integration/all.spec.js") cfg_unset) None [])
  = Ok (Some "cypress/integration/all.spec.js").
Proof.
  apply (@defaultSpecFileName_plain_pattern Ref.path Ref.libs
           (Ref.source (Some "/proj")
              (Ref.config (cfg_one "cypress/integration/all.spec.js") cfg_unset)
              None [])
           "/proj" e2e
           {| cfg_specPattern := cfg_one "cypress/integration/all.spec.js";
              cfg_excludeSpecPattern := cfg_unset |}
           "cypress/integration/all.spec.js"
           {| is_glob := false; pg_dirname := "cypress/integration/";
              pg_filename := "all"; pg_extname := ".spec.js"; pg_ext := "js" |}).
  - reflexivity.
  - reflexivity.
  - reflexivity.
  - reflexivity.
  - reflexivity.
  - reflexivity.
  - vm_compute. discriminate.
  - reflexivity.
  - reflexivity.
  - reflexivity.
Defined.

(** ** [getLongestCommonPrefixFromPaths]: later paths that are prefixes *)

Lemma keptSegments_all_prefixes others : forall parts0,
  Forall (fun q => q `prefix_of` parts0) others ->
  keptSegments parts0 others = parts0.
Proof.
  induction others as [|q others IH]; intros parts0 Hall; [reflexivity|].
  apply Forall_cons in Hall as [Hq Hall]. cbn [keptSegments foldl].
  unfold keepOrCut at 2. rewrite decide_True by exact Hq. now apply IH.
Qed.

(** X22: when every later path is, segment by segment, a prefix of the
    first path -- a repetition of it, or one of its directories -- the
    result is the whole first path, file name included, with its
    segments joined by the separator. *)
Theorem getLongestCommonPrefixFromPaths_later_prefixes `{NodePath} p0 p1 rest :
  Forall (fun p => getPathParts p `prefix_of` getPathParts p0) (p1 :: rest) ->
  getLongestCommonPrefixFromPaths (p0 :: p1 :: rest)
  = Js.join path_sep (getPathParts p0).
Proof.
  intros Hall. rewrite scanned_kept_segments.
  rewrite keptSegments_all_prefixes; [reflexivity|].
  rewrite Forall_fmap. exact Hall.
Qed.

Lemma getLongestCommonPrefixFromPaths_later_prefixes_witness :
  @getLongestCommonPrefixFromPaths Ref.path
    ["src/ui/a.cy.js"; "src/ui/a.cy.js"; "src"]
  = "src/ui/a.cy.js".
Proof.
  apply (@getLongestCommonPrefixFromPaths_later_prefixes Ref.path
           "src/ui/a.cy.js" "src/ui/a.cy.js" ["src"]).
  repeat constructor.
  - exists []. reflexivity.
  - exists ["ui"; "a.cy.js"]. reflexivity.
Defined.

(** ** [transformSpec]: the name *)

Lemma includes_cons s c sep :
  Js.includes (String c s) sep = false ->
  String.prefix sep (String c s) = false /\ Js.includes s sep = false.
Proof. cbn [Js.includes]. now intros [? ?]%orb_false_elim. Qed.

(** a string in which the separator does not occur is not cut *)
Lemma split_str_go_absent sep s : forall cur,
  Js.includes s sep = false ->
  Js.split_str_go sep 0 cur s = [String.rev cur +:+ s].
Proof.
  induction s as [|c s IH]; intros cur Habs; cbn [Js.split_str_go].
  - now rewrite append_nil_r.
  - apply includes_cons in Habs as [Hp Hs]. rewrite Hp.
    rewrite (IH (String c cur) Hs), rev_String, append_assoc. reflexivity.
Qed.

(** the characters of a matched separator are passed over *)
Lemma split_str_go_skip sep t : forall cur s,
  Js.split_str_go sep (String.length t) cur (t +:+ s)
  = match s with
    | EmptyString => [String.rev cur]
    | _ => Js.split_str_go sep 0 cur s
    end.
Proof.
  induction t as [|c t IH]; intros cur s.
  - rewrite append_nil_l. now destruct s.
  - rewrite append_String. cbn [String.length Js.split_str_go]. apply IH.
Qed.

Lemma split_str_prefix c sep rest :
  Js.includes rest (String c sep) = false ->
  rest ≠ "" ->
  Js.split_str (String c sep) (String c sep +:+ rest) = [""; rest].
Proof.
  intros Habs Hne. unfold Js.split_str. rewrite append_String.
  cbn [Js.split_str_go]. rewrite <- append_String, prefix_append.
  cbn [String.length].
  replace (S (String.length sep) - 1) with (String.length sep) by lia.
  rewrite split_str_go_skip. destruct rest as [|d rest]; [contradiction|].
  now rewrite split_str_go_absent.
Qed.

(** X23: off win32, for a path that is the project root, a slash and a
    remainder in which the project root does not occur again, [name] is
    the remainder. *)
Theorem transformSpec_name `{NodePath} c root testingType commonRoot platform
    sep rest :
  platform ≠ "win32" ->
  Js.includes ("/" +:+ rest) (String c root) = false ->
  name (transformSpec (String c root) (String c root +:+ "/" +:+ rest)
          testingType commonRoot platform sep)
  = rest.
Proof.
  intros Hp Habs. unfold transformSpec. cbn [name].
  apply String.eqb_neq in Hp. rewrite Hp.
  rewrite split_str_prefix by (exact Habs || discriminate).
  change ("/" +:+ rest) with (String "/" rest).
  cbn [last Js.or_else Js.truthy String.eqb negb Js.startsWith String.prefix].
  destruct (ascii_dec "/" "/"); [|congruence]. now destruct rest.
Qed.

Lemma transformSpec_name_witness :
  name (@transformSpec Ref.path "/proj" ("/proj" +:+ "/" +:+ "cypress/e2e/a.cy.js")
          e2e "/proj/cypress" "linux" "/")
  = "cypress/e2e/a.cy.js".
Proof.
  apply (@transformSpec_name Ref.path "/"%char "proj" e2e "/proj/cypress" "linux"
           "/" "cypress/e2e/a.cy.js").
  - discriminate.
  - reflexivity.
Defined.

Example transformSpec_name_last_occurrence :
  name (@transformSpec Ref.path "/proj" "/proj/packages/proj/a.cy.js" e2e
          "/proj" "linux" "/")
  = "a.cy.js".
Proof. reflexivity. Qed.
